(** * InvestLord bot: portfolio ingestion, aggregation and replies

    A shallow embedding of [main.py].  The pandas frame is a list of
    records (one Python dict per sheet row) together with its column
    index; the Google Sheets client is a snapshot of what each remote call
    answers; the handlers run in a small trace-and-exception monad whose
    events are the remote calls, the log entries, the replies and the
    sleeps.

    Numbers: every numeric cell and every arithmetic result is an exact
    rational ([Qc]).  The rounding of binary64 and the infinities are not
    represented; [NaN] is kept as what pandas uses it for, the marker of a
    missing cell. *)

From Stdlib Require Import List String Ascii ZArith QArith Qcanon Lia Bool.
From Stdlib Require Import Sorted.
From Stdlib Require OrderedTypeEx.
Import ListNotations.

Local Open Scope string_scope.
Local Open Scope list_scope.

(** ** Exceptions and results *)

Inductive exn : Type :=
| SourceError (msg : string)   (* anything the Sheets client raises *)
| KeyError (key : string)
| TypeError
| ValueError
| ZeroDivisionError.

Inductive result (A : Type) : Type :=
| Ok (a : A)
| Raise (e : exn).

Arguments Ok {A} a.
Arguments Raise {A} e.

Definition rbind {A B : Type} (m : result A) (f : A -> result B) : result B :=
  match m with
  | Ok a => f a
  | Raise e => Raise e
  end.

Fixpoint rmap {A B : Type} (f : A -> result B) (l : list A) : result (list B) :=
  match l with
  | [] => Ok []
  | x :: l' =>
      rbind (f x) (fun y => rbind (rmap f l') (fun ys => Ok (y :: ys)))
  end.

(** ** Cells, records and frames *)

Inductive cell : Type :=
| Num (q : Qc)
| Str (s : string)
| NaN.

Definition qz (z : Z) : Qc := Q2Qc (inject_Z z).

(** A Python dict from column name to cell, in insertion order. *)
Definition record : Type := list (string * cell).

Fixpoint get (k : string) (r : record) : option cell :=
  match r with
  | [] => None
  | (k', v) :: r' => if String.eqb k k' then Some v else get k r'
  end.

(** [row.get(k, default)] *)
Definition get_default (k : string) (d : cell) (r : record) : cell :=
  match get k r with
  | Some v => v
  | None => d
  end.

Fixpoint mem (k : string) (l : list string) : bool :=
  match l with
  | [] => false
  | k' :: l' => String.eqb k k' || mem k l'
  end.

(** [r[k] = v] on a dict: the value is replaced in place when the key
    exists, the pair is appended otherwise. *)
Fixpoint set_field (k : string) (v : cell) (r : record) : record :=
  match r with
  | [] => [(k, v)]
  | (k', v') :: r' =>
      if String.eqb k k' then (k', v) :: r' else (k', v') :: set_field k v r'
  end.

Record DataFrame : Type := mkFrame {
  columns : list string;
  records : list record
}.

Fixpoint add_keys (cols : list string) (r : record) : list string :=
  match r with
  | [] => cols
  | (k, _) :: r' => add_keys (if mem k cols then cols else cols ++ [k]) r'
  end.

(** The column index of [pd.DataFrame(rows)]: the keys of the rows, in
    order of first appearance. *)
Definition columns_of (rows : list record) : list string :=
  fold_left add_keys rows [].

(** [pd.DataFrame(rows)]: a row that lacks a column holds NaN there. *)
Definition frame_of_rows (rows : list record) : DataFrame :=
  let cols := columns_of rows in
  mkFrame cols
    (map (fun r => map (fun c => (c, get_default c NaN r)) cols) rows).

(** [df.empty]: no row, or no column. *)
Definition empty (df : DataFrame) : bool :=
  match records df, columns df with
  | [], _ => true
  | _, [] => true
  | _, _ => false
  end.

(** [df[col]] *)
Definition getitem (col : string) (df : DataFrame) : result (list cell) :=
  if mem col (columns df)
  then Ok (map (get_default col NaN) (records df))
  else Raise (KeyError col).

(** [df[col] = vals] *)
Definition setitem (col : string) (vals : list cell) (df : DataFrame)
  : DataFrame :=
  mkFrame
    (if mem col (columns df) then columns df else columns df ++ [col])
    (map (fun rv => set_field col (snd rv) (fst rv))
         (combine (records df) vals)).

Section Bot.

(** ** Record Normalizer: [sheet_to_dataframe] *)

(** How [pd.to_numeric] reads a string cell: [None] when the text is
    not a number. *)
Variable numeric_of_string : string -> option Qc.

(** [pd.to_numeric(_, errors="coerce")] on one cell *)
Definition to_numeric (c : cell) : cell :=
  match c with
  | Num q => Num q
  | Str s =>
      match numeric_of_string s with
      | Some q => Num q
      | None => NaN
      end
  | NaN => NaN
  end.

(** [.fillna(0)] on one cell *)
Definition fillna0 (c : cell) : cell :=
  match c with
  | NaN => Num (qz 0)
  | _ => c
  end.

Definition coerce_column (df : DataFrame) (col : string) : DataFrame :=
  if mem col (columns df)
  then setitem col
         (map (fun r => fillna0 (to_numeric (get_default col NaN r)))
              (records df))
         df
  else df.

(** The body of [sheet_to_dataframe] after the rows are fetched. *)
Definition normalize (rows : list record) : DataFrame :=
  let df := frame_of_rows rows in
  if empty df then df
  else fold_left coerce_column ["qty"; "avg_price"] df.


(** What [coerce_column] does to each record. *)
Definition coerced (col : string) (r : record) : record :=
  set_field col (fillna0 (to_numeric (get_default col NaN r))) r.

(** The records of a normalized frame, from the raw rows. *)
Definition normalized_record (cols : list string) (raw : record) : record :=
  let r0 := map (fun c => (c, get_default c NaN raw)) cols in
  let r1 := if mem "qty" cols then coerced "qty" r0 else r0 in
  if mem "avg_price" cols then coerced "avg_price" r1 else r1.

(** ** Aggregation Engine: [analyze_portfolio] *)

(** A Python dict from group key to number, as [groupby(...).sum().to_dict()]
    builds it: one entry per key, keys in sorted order. *)
Definition dict : Type := list (cell * Qc).

(** The order pandas sorts group keys in: numbers before strings. *)
Definition cell_compare (a b : cell) : comparison :=
  match a, b with
  | Num x, Num y => (x ?= y)%Qc
  | Num _, _ => Lt
  | Str _, Num _ => Gt
  | Str s, Str t => String.compare s t
  | Str _, NaN => Lt
  | NaN, NaN => Eq
  | NaN, _ => Gt
  end.

Fixpoint group_add (k : cell) (v : Qc) (d : dict) : dict :=
  match d with
  | [] => [(k, v)]
  | (k', v') :: d' =>
      match cell_compare k k' with
      | Eq => (k', (v' + v)%Qc) :: d'
      | Lt => (k, v) :: (k', v') :: d'
      | Gt => (k', v') :: group_add k v d'
      end
  end.

(** [groupby(key)["value"].sum()]: rows whose key is missing (NaN) belong
    to no group. *)
Definition groupby_sum (keys : list cell) (vals : list Qc) : dict :=
  fold_left
    (fun d kv =>
       match fst kv with
       | NaN => d
       | k => group_add k (snd kv) d
       end)
    (combine keys vals) [].

(** [d.get(k, default)] *)
Fixpoint dict_get (k : cell) (default : Qc) (d : dict) : Qc :=
  match d with
  | [] => default
  | (k', v) :: d' =>
      match cell_compare k k' with
      | Eq => v
      | _ => dict_get k default d'
      end
  end.

Definition sum (l : list Qc) : Qc := fold_right Qcplus (qz 0) l.


(** The number a cell of [df[col].fillna(0)] stands for; text has no
    product.  (Frames that come out of [sheet_to_dataframe] hold no text in
    these two columns.) *)
Definition filled (c : cell) : result Qc :=
  match c with
  | Num q => Ok q
  | NaN => Ok (qz 0)
  | Str _ => Raise TypeError
  end.

Fixpoint series_mul (a b : list cell) : result (list Qc) :=
  match a, b with
  | x :: a', y :: b' =>
      rbind (filled x) (fun p =>
      rbind (filled y) (fun q =>
      rbind (series_mul a' b') (fun r => Ok ((p * q)%Qc :: r))))
  | _, _ => Ok []
  end.

(** [if total] *)
Definition truthy (x : Qc) : bool := negb (Qc_eq_bool x (qz 0)).

(** Python's [/] on floats *)
Definition py_div (x y : Qc) : result Qc :=
  if Qc_eq_bool y (qz 0) then Raise ZeroDivisionError else Ok (x / y)%Qc.

(** [float(v)/total*100 if total else 0] *)
Definition share (total v : Qc) : result Qc :=
  if truthy total
  then rbind (py_div v total) (fun d => Ok (d * qz 100)%Qc)
  else Ok (qz 0).

(** [{k: ... for k, v in groups.items()}] *)
Definition shares (total : Qc) (groups : dict) : result dict :=
  rmap (fun kv => rbind (share total (snd kv)) (fun p => Ok (fst kv, p)))
       groups.

(** The dict [analyze_portfolio] returns.  The two percentage maps are
    optional because one of its two [return]s builds a dict without
    them. *)
Record Summary : Type := mkSummary {
  total : Qc;
  by_account : dict;
  by_account_pct : option dict;
  by_type : dict;
  by_type_pct : option dict;
  rows : list record
}.

(** [analyze_portfolio(df)]: what it returns or raises, and the frame
    [df] as the call leaves it. *)
Definition analyze_portfolio (df : DataFrame) : result Summary * DataFrame :=
  if empty df
  then (Ok (mkSummary (qz 0) [] None [] None []), df)
  else
    match getitem "qty" df with
    | Raise e => (Raise e, df)
    | Ok qty =>
    match getitem "avg_price" df with
    | Raise e => (Raise e, df)
    | Ok avg =>
    match series_mul qty avg with
    | Raise e => (Raise e, df)
    | Ok value =>
        let df1 := setitem "value" (map Num value) df in
        let total := sum value in
        (rbind (getitem "account" df1) (fun accounts =>
         let by_account := groupby_sum accounts value in
         rbind (getitem "type" df1) (fun types =>
         let by_type := groupby_sum types value in
         rbind (shares total by_account) (fun by_account_pct =>
         rbind (shares total by_type) (fun by_type_pct =>
         Ok (mkSummary total by_account (Some by_account_pct)
                       by_type (Some by_type_pct) (records df1)))))),
         df1)
    end end end.

(** What [share] evaluates to. *)
Definition share_value (total v : Qc) : Qc :=
  if truthy total then (v / total * qz 100)%Qc else qz 0.

Definition percentages (total : Qc) (groups : dict) : dict :=
  map (fun kv => (fst kv, share_value total (snd kv))) groups.

(** The summary the second [return] of [analyze_portfolio] builds, from the
    frame with its [value] column and that column's numbers. *)
Definition summary_of (df1 : DataFrame) (value : list Qc) : Summary :=
  let accounts := map (get_default "account" NaN) (records df1) in
  let types := map (get_default "type" NaN) (records df1) in
  mkSummary (sum value)
            (groupby_sum accounts value)
            (Some (percentages (sum value) (groupby_sum accounts value)))
            (groupby_sum types value)
            (Some (percentages (sum value) (groupby_sum types value)))
            (records df1).

(** The summary its first [return] builds. *)
Definition empty_summary : Summary := mkSummary (qz 0) [] None [] None [].

(** Column [col] exists and holds no text. *)
Definition numeric (col : string) (df : DataFrame) : bool :=
  mem col (columns df)
  && forallb (fun r => match get_default col NaN r with
                       | Str _ => false
                       | _ => true
                       end) (records df).

(** Column [col] exists and no record misses its cell. *)
Definition keyed (col : string) (df : DataFrame) : bool :=
  mem col (columns df)
  && forallb (fun r => match get_default col NaN r with
                       | NaN => false
                       | _ => true
                       end) (records df).

(** A non-empty frame of position records: numeric [qty] and [avg_price],
    and an [account] and a [type] in every record. *)
Definition position_records (df : DataFrame) : bool :=
  negb (empty df) && numeric "qty" df && numeric "avg_price" df
  && keyed "account" df && keyed "type" df.

(** ** Number formatting: the format specs [,.2f], [.2f] and [.1f] *)

Local Open Scope char_scope.

Fixpoint uint_digits (u : Decimal.uint) : list ascii :=
  match u with
  | Decimal.Nil => []
  | Decimal.D0 u' => "0" :: uint_digits u'
  | Decimal.D1 u' => "1" :: uint_digits u'
  | Decimal.D2 u' => "2" :: uint_digits u'
  | Decimal.D3 u' => "3" :: uint_digits u'
  | Decimal.D4 u' => "4" :: uint_digits u'
  | Decimal.D5 u' => "5" :: uint_digits u'
  | Decimal.D6 u' => "6" :: uint_digits u'
  | Decimal.D7 u' => "7" :: uint_digits u'
  | Decimal.D8 u' => "8" :: uint_digits u'
  | Decimal.D9 u' => "9" :: uint_digits u'
  end.

(** [|x| * 10^d] rounded to the nearest integer, ties to even. *)
Definition scaled (d : nat) (x : Qc) : N :=
  let a := (Z.abs (Qnum x) * 10 ^ Z.of_nat d)%Z in
  let den := Zpos (Qden x) in
  let quo := (a / den)%Z in
  let rem := (a mod den)%Z in
  Z.to_N
    (if (2 * rem <? den)%Z then quo
     else if (den <? 2 * rem)%Z then (quo + 1)%Z
     else if Z.even quo then quo else (quo + 1)%Z).

Definition pad_left (n : nat) (l : list ascii) : list ascii :=
  repeat "0" (n - List.length l) ++ l.

(** A comma after every third digit, on the digits in reverse. *)
Fixpoint group_rev (l : list ascii) : list ascii :=
  match l with
  | a :: b :: c :: ((_ :: _) as rest) => a :: b :: c :: "," :: group_rev rest
  | _ => l
  end.

Definition group3 (ds : list ascii) : list ascii := rev (group_rev (rev ds)).

(** [format(x, ",.df")] when [comma], [format(x, ".df")] otherwise. *)
Definition format_f (comma : bool) (d : nat) (x : Qc) : string :=
  let ds := pad_left (S d) (uint_digits (N.to_uint (scaled d x))) in
  let k := (List.length ds - d)%nat in
  let ip := firstn k ds in
  let fp := skipn k ds in
  string_of_list_ascii
    ((if (Qnum x <? 0)%Z then ["-"] else [])
       ++ (if comma then group3 ip else ip) ++ "." :: fp).

(** A Python float: a number, or nan. *)
Definition pyfloat : Type := option Qc.

Definition format_float (comma : bool) (d : nat) (x : pyfloat) : string :=
  match x with
  | Some q => format_f comma d q
  | None => "nan"%string
  end.

Definition fmul (a b : pyfloat) : pyfloat :=
  match a, b with
  | Some x, Some y => Some (x * y)%Qc
  | _, _ => None
  end.

Definition fadd (a b : pyfloat) : pyfloat :=
  match a, b with
  | Some x, Some y => Some (x + y)%Qc
  | _, _ => None
  end.

(** *** The shapes a rendered amount can have *)

Definition is_digit (c : ascii) : bool :=
  (48 <=? nat_of_ascii c)%nat && (nat_of_ascii c <=? 57)%nat.

(** Reversed integer part: groups of exactly three digits, each followed
    by a comma, then a last group of one to three digits. *)
Fixpoint grouped_rev (l : list ascii) : bool :=
  match l with
  | [] => false
  | a :: l1 =>
      is_digit a &&
      match l1 with
      | [] => true
      | b :: l2 =>
          is_digit b &&
          match l2 with
          | [] => true
          | c :: l3 =>
              is_digit c &&
              match l3 with
              | [] => true
              | s :: rest => Ascii.eqb s "," && grouped_rev rest
              end
          end
      end
  end.

Definition strip_sign (l : list ascii) : list ascii :=
  match l with
  | "-" :: l' => l'
  | _ => l
  end.

(** Two decimal places and a thousands separator: [-]d{1,3}(,ddd)*.dd *)
Definition is_money (s : string) : bool :=
  match rev (strip_sign (list_ascii_of_string s)) with
  | f2 :: f1 :: dot :: ip =>
      is_digit f2 && is_digit f1 && Ascii.eqb dot "." && grouped_rev ip
  | _ => false
  end.


(** One decimal place: [-]d+.d *)
Definition is_one_place (s : string) : bool :=
  match rev (strip_sign (list_ascii_of_string s)) with
  | f1 :: dot :: ip =>
      is_digit f1 && Ascii.eqb dot "."
      && negb (List.length ip =? 0)%nat && forallb is_digit ip
  | _ => false
  end.

Local Close Scope char_scope.

(** ** The Sheets client and the effects of the handlers *)

(** What the remote calls answer during one run of fetching the rows. *)
Record Worksheet : Type := mkWorksheet {
  get_all_records : result (list record)
}.

Record Spreadsheet : Type := mkSpreadsheet {
  worksheet : string -> result Worksheet;
  sheet1 : result Worksheet
}.

(** What [connect_gsheet()] comes back with. *)
Definition Source : Type := result Spreadsheet.

Inductive event : Type :=
| Connect
| OpenWorksheet (name : string)
| OpenSheet1
| GetAllRecords
| Answer (text : string)
| LogInfo (msg : string) (arg : Qc)
| LogException (msg : string) (e : exn)
| Sleep (seconds : Z).

(** A computation: the events it performs, then a value or an exception. *)
Definition io (A : Type) : Type := list event * result A.

Definition ret {A : Type} (a : A) : io A := ([], Ok a).

Definition bind {A B : Type} (m : io A) (f : A -> io B) : io B :=
  match snd m with
  | Ok a => (fst m ++ fst (f a), snd (f a))
  | Raise e => (fst m, Raise e)
  end.

Notation "x <- m ;; k" := (bind m (fun x => k))
  (at level 61, m at next level, right associativity).
Notation "m ;; k" := (bind m (fun _ => k))
  (at level 61, right associativity).

Definition lift {A : Type} (r : result A) : io A := ([], r).

Definition call {A : Type} (ev : event) (outcome : result A) : io A :=
  ([ev], outcome).

Definition emit (ev : event) : io unit := ([ev], Ok tt).

(** [try: body / except Exception as e: handler(e)] *)
Definition try_except {A : Type} (body : io A) (handler : exn -> io A)
  : io A :=
  match snd body with
  | Ok _ => body
  | Raise e => (fst body ++ fst (handler e), snd (handler e))
  end.

(** The same, with the outcome of the guarded block handed on. *)
Definition attempt {A : Type} (body : io A) : io (result A) :=
  (fst body, Ok (snd body)).

Definition EXPECTED_SHEET_NAME : string := "portfolio".

Definition is_connect (ev : event) : bool :=
  match ev with Connect => true | _ => false end.

Definition is_get_all_records (ev : event) : bool :=
  match ev with GetAllRecords => true | _ => false end.

Definition is_answer (ev : event) : bool :=
  match ev with Answer _ => true | _ => false end.

Definition is_sleep (ev : event) : bool :=
  match ev with Sleep _ => true | _ => false end.

Definition count (p : event -> bool) (t : list event) : nat :=
  List.length (filter p t).

Definition connect_gsheet (src : Source) : io Spreadsheet := call Connect src.

Definition sheet_to_dataframe (sh : Spreadsheet) : io DataFrame :=
  ws <- try_except
          (call (OpenWorksheet EXPECTED_SHEET_NAME)
                (worksheet sh EXPECTED_SHEET_NAME))
          (fun _ => call OpenSheet1 (sheet1 sh)) ;;
  rows <- call GetAllRecords (get_all_records ws) ;;
  ret (normalize rows).

(** The worksheet [sheet_to_dataframe] ends up reading: the one named
    [EXPECTED_SHEET_NAME], or the first sheet when that lookup fails. *)
Definition open_sheet (sh : Spreadsheet) : result Worksheet :=
  match worksheet sh EXPECTED_SHEET_NAME with
  | Ok ws => Ok ws
  | Raise _ => sheet1 sh
  end.

(** The two guarded lines every handler starts with. *)
Definition fetch (src : Source) : io DataFrame :=
  sh <- connect_gsheet src ;;
  sheet_to_dataframe sh.

(** ** Python's [str] and [float] *)

(** [float(s)] on a string, [None] when Python refuses it. *)
Variable float_of_string : string -> option Qc.

(** [str(x)] on a number. *)
Variable str_of_num : Qc -> string.

Definition py_str (c : cell) : string :=
  match c with
  | Str s => s
  | Num q => str_of_num q
  | NaN => "nan"
  end.

Definition py_float (c : cell) : result pyfloat :=
  match c with
  | Num q => Ok (Some q)
  | NaN => Ok None
  | Str s =>
      match float_of_string s with
      | Some q => Ok (Some q)
      | None => Raise ValueError
      end
  end.

(** [str(e)] *)
Definition exn_str (e : exn) : string :=
  match e with
  | SourceError msg => msg
  | KeyError key => ("'" ++ key ++ "'")%string
  | TypeError => "can't multiply sequence by non-int of type 'float'"
  | ValueError => "could not convert string to float"
  | ZeroDivisionError => "float division by zero"
  end.

Definition nat_str (n : nat) : string :=
  string_of_list_ascii (uint_digits (Nat.to_uint n)).

Definition newline : string := String (ascii_of_nat 10) "".

(** [sep.join(lines)] *)
Fixpoint join (sep : string) (lines : list string) : string :=
  match lines with
  | [] => ""
  | [l] => l
  | l :: ls => (l ++ sep ++ join sep ls)%string
  end.

(** ** Query handlers *)

Definition source_error_reply (e : exn) : string :=
  ("Ошибка доступа к Google Sheets: " ++ exn_str e)%string.

(** One turn of the [for _, row in df.iterrows()] loop of [cmd_portfolio]:
    the line it appends and the amount it adds to [total]. *)
Definition portfolio_line (row : record) : result (string * pyfloat) :=
  let symbol := get_default "symbol" (Str "") row in
  let qty := get_default "qty" (Num (qz 0)) row in
  let avg := get_default "avg_price" (Num (qz 0)) row in
  rbind (py_float qty) (fun q =>
  rbind (py_float avg) (fun a =>
  let value := fmul q a in
  Ok ((py_str symbol ++ " — qty: " ++ py_str qty ++ ", price: "
         ++ py_str avg ++ " ₽, value: " ++ format_float true 2 value
         ++ " ₽")%string,
      value))).

Fixpoint portfolio_loop (rs : list record) (total : pyfloat)
  : result (list string * pyfloat) :=
  match rs with
  | [] => Ok ([], total)
  | row :: rs' =>
      rbind (portfolio_line row) (fun lv =>
      rbind (portfolio_loop rs' (fadd total (snd lv))) (fun rest =>
      Ok (fst lv :: fst rest, snd rest)))
  end.

Definition portfolio_total_line (total : pyfloat) : string :=
  (newline ++ "💵 *Итого:* " ++ format_float false 2 total ++ " ₽")%string.

Definition cmd_portfolio (src : Source) : io unit :=
  r <- attempt (fetch src) ;;
  match r with
  | Raise e =>
      emit (LogException "Ошибка чтения Google Sheets" e) ;;
      emit (Answer (source_error_reply e))
  | Ok df =>
      if empty df
      then emit (Answer "Портфель пуст или неверная структура листа.")
      else
        lt <- lift (portfolio_loop (records df) (Some (qz 0))) ;;
        emit (Answer
                (join newline
                   (("📊 *Твой портфель*:" ++ newline)%string
                      :: fst lt ++ [portfolio_total_line (snd lt)])))
  end.

(** [analysis[key]] for a key that not every summary has. *)
Definition subscript {A : Type} (key : string) (field : option A) : result A :=
  match field with
  | Some a => Ok a
  | None => Raise (KeyError key)
  end.

(** One turn of the two [for ... in analysis[...].items()] loops:
    [pct = analysis[key].get(k, 0)], then the line. *)
Definition group_line (key : string) (pcts : option dict) (kv : cell * Qc)
  : result string :=
  rbind (subscript key pcts) (fun d =>
  let pct := dict_get (fst kv) (qz 0) d in
  Ok (py_str (fst kv) ++ ": " ++ format_f true 2 (snd kv) ++ " ₽ ("
        ++ format_f false 1 pct ++ "%)")%string).

Definition analysis_header (total : Qc) : string :=
  ("📈 *Анализ портфеля* — Итого: " ++ format_f true 2 total ++ " ₽"
     ++ newline)%string.

Definition cmd_analysis (src : Source) : io unit :=
  r <- attempt (fetch src) ;;
  match r with
  | Raise e => emit (Answer (source_error_reply e))
  | Ok df =>
      analysis <- lift (fst (analyze_portfolio df)) ;;
      if Qc_eq_bool (total analysis) (qz 0)
      then emit (Answer "Портфель пуст или нулевой.")
      else
        acc_lines <- lift (rmap (group_line "by_account_pct"
                                   (by_account_pct analysis))
                                (by_account analysis)) ;;
        typ_lines <- lift (rmap (group_line "by_type_pct"
                                   (by_type_pct analysis))
                                (by_type analysis)) ;;
        emit (Answer
                (join newline
                   (analysis_header (total analysis)
                      :: "— По счетам:"
                      :: acc_lines
                      ++ (newline ++ "— По типам:")%string
                      :: typ_lines)))
  end.

(** One turn of the [for i, r in enumerate(..., 1)] loop of [cmd_rows]. *)
Definition rows_line (i : nat) (r : record) : result string :=
  let symbol := get_default "symbol" (Str "") r in
  let qty := get_default "qty" (Num (qz 0)) r in
  let avg := get_default "avg_price" (Num (qz 0)) r in
  rbind (py_float qty) (fun q =>
  rbind (py_float avg) (fun a =>
  Ok (nat_str i ++ ". " ++ py_str symbol ++ " — " ++ py_str qty ++ " × "
        ++ py_str avg ++ " = " ++ format_float true 2 (fmul q a) ++ " ₽"
        ++ newline)%string)).

Fixpoint rows_loop (i : nat) (rs : list record) (text : string)
  : result string :=
  match rs with
  | [] => Ok text
  | r :: rs' =>
      rbind (rows_line i r) (fun l => rows_loop (S i) rs' (text ++ l)%string)
  end.

Definition cmd_rows (src : Source) : io unit :=
  r <- attempt (fetch src) ;;
  match r with
  | Raise e => emit (Answer (source_error_reply e))
  | Ok df =>
      if empty df
      then emit (Answer "Пусто")
      else
        text <- lift (rows_loop 1 (firstn 10 (records df))
                        ("Первые строки:" ++ newline)%string) ;;
        emit (Answer text)
  end.

(** ** The shape of the reply lines *)

(** A line of the listing: the amount after [value:] has two decimal
    places and the thousands separator. *)
Definition listing_line_shape (r : record) (line : string) : Prop :=
  exists m,
    is_money m = true
    /\ line
       = (py_str (get_default "symbol" (Str "") r) ++ " — qty: "
            ++ py_str (get_default "qty" (Num (qz 0)) r) ++ ", price: "
            ++ py_str (get_default "avg_price" (Num (qz 0)) r)
            ++ " ₽, value: " ++ m ++ " ₽")%string.

(** A line of the preview. *)
Definition preview_line_shape (r : record) (line : string) : Prop :=
  exists i m,
    is_money m = true
    /\ line
       = (nat_str i ++ ". " ++ py_str (get_default "symbol" (Str "") r)
            ++ " — " ++ py_str (get_default "qty" (Num (qz 0)) r) ++ " × "
            ++ py_str (get_default "avg_price" (Num (qz 0)) r)
            ++ " = " ++ m ++ " ₽" ++ newline)%string.

(** A line of the analysis: the group's amount and its share. *)
Definition group_line_shape (kv : cell * Qc) (line : string) : Prop :=
  exists m p,
    is_money m = true /\ is_one_place p = true
    /\ line = (py_str (fst kv) ++ ": " ++ m ++ " ₽ (" ++ p ++ "%)")%string.

(** ** Periodic refresh: [periodic_task] *)

(** The guarded block of the loop body. *)
Definition refresh (src : Source) : io unit :=
  df <- fetch src ;;
  analysis <- lift (fst (analyze_portfolio df)) ;;
  emit (LogInfo "Periodic update — total: %s" (total analysis)).

(** The body of the [while True] loop. *)
Definition periodic_cycle (src : Source) : io unit :=
  try_except (refresh src)
             (fun e => emit (LogException "Periodic task error" e)) ;;
  emit (Sleep (60 * 30)).

(** The first [n] turns of the loop; turn [i] runs against [env i].  The
    loop has no exit of its own: the only way out of a turn is an
    exception. *)
Fixpoint periodic_task (n : nat) (env : nat -> Source) (i : nat) : io unit :=
  match n with
  | O => ret tt
  | S n' => periodic_cycle (env i) ;; periodic_task n' env (S i)
  end.

End Bot.

(** ** Reading frames, records and group maps *)

(** The row has a cell under [col]. *)
Definition has_key (col : string) (r : record) : bool :=
  match get col r with
  | Some _ => true
  | None => false
  end.

(** The two cells are the same group key. *)
Definition key_eqb (k k' : cell) : bool :=
  match cell_compare k k' with
  | Eq => true
  | _ => false
  end.

(** The number in the [value] field of a row of the summary. *)
Definition value_of (r : record) : Qc :=
  match get "value" r with
  | Some (Num v) => v
  | _ => qz 0
  end.

(** The keys of a group map come in strictly increasing order. *)
Definition keys_increasing (d : dict) : Prop :=
  StronglySorted (fun a b => cell_compare (fst a) (fst b) = Lt) d.

(** The first of the four columns [analyze_portfolio] subscripts, in the
    order it reaches them, that the frame does not have. *)
Definition first_missing (cols : list string) : option string :=
  find (fun c => negb (mem c cols)) ["qty"; "avg_price"; "account"; "type"].

(** ** Sample data *)

(** A reading of text cells that takes none of them for a number. *)
Definition no_number (s : string) : option Qc := None.

(** A rendering of numbers: whole numbers as their digits, the others
    with one decimal place. *)
Definition plain_number (q : Qc) : string :=
  match Qden q with
  | xH =>
      ((if (Qnum q <? 0)%Z then "-" else "")
         ++ string_of_list_ascii
              (pad_left 1 (uint_digits (N.to_uint (Z.to_N (Z.abs (Qnum q)))))))
        %string
  | _ => format_f false 1 q
  end.

(** A spreadsheet whose worksheets all hold [rows]. *)
Definition book_with (rows : list record) : Spreadsheet :=
  mkSpreadsheet (fun _ => Ok (mkWorksheet (Ok rows)))
                (Ok (mkWorksheet (Ok rows))).

(** A connection that succeeds and opens [book_with rows]. *)
Definition sheet_with (rows : list record) : Source := Ok (book_with rows).

(** A connection that fails. *)
Definition unreachable : Source := Raise (SourceError "timed out").

Definition row_X : record :=
  [("account", Str "A"); ("type", Str "stock"); ("symbol", Str "X");
   ("qty", Num (qz 1000)); ("avg_price", Num (qz 2))].

Definition row_text_qty : record :=
  [("account", Str "A"); ("type", Str "stock"); ("symbol", Str "Y");
   ("qty", Str "abc"); ("avg_price", Num (qz 5))].

Definition row_without_qty : record :=
  [("account", Str "A"); ("type", Str "bond"); ("symbol", Str "Z");
   ("avg_price", Num (qz 5))].

(** A reading of text cells that takes runs of digits for whole
    numbers. *)
Fixpoint digits_value (s : string) (acc : N) : option N :=
  match s with
  | EmptyString => Some acc
  | String c s' =>
      if is_digit c
      then digits_value s' (10 * acc + (N_of_ascii c - 48))%N
      else None
  end.

Definition whole_number (s : string) : option Qc :=
  match s with
  | EmptyString => None
  | _ => option_map (fun n => qz (Z.of_N n)) (digits_value s 0%N)
  end.

(** A spreadsheet without a "portfolio" tab, whose first sheet holds
    [rows]. *)
Definition book_without_tab (rows : list record) : Spreadsheet :=
  mkSpreadsheet (fun _ => Raise (SourceError "WorksheetNotFound"))
                (Ok (mkWorksheet (Ok rows))).

Definition row_Y : record :=
  [("account", Str "B"); ("type", Str "bond"); ("symbol", Str "Y");
   ("qty", Str "7"); ("avg_price", Num (qz 10)); ("notes", Str "held")].

(** * Properties *)

Section Verification.

Set Default Proof Using "Type".

Variable numeric_of_string : string -> option Qc.
Variable float_of_string : string -> option Qc.
Variable str_of_num : Qc -> string.

(** ** Records and frames *)

Lemma get_set_field_same (k : string) (v : cell) (r : record) :
  get k (set_field k v r) = Some v.
Proof.
  induction r as [|[k' v'] r IH]; simpl.
  - now rewrite String.eqb_refl.
  - destruct (String.eqb k k') eqn:E; simpl; rewrite E; auto.
Qed.

Lemma get_set_field_other (k k' : string) (v : cell) (r : record) :
  k <> k' -> get k (set_field k' v r) = get k r.
Proof.
  intros Hk. induction r as [|[k0 v0] r IH]; simpl.
  - destruct (String.eqb_spec k k'); congruence.
  - destruct (String.eqb_spec k' k0) as [->|Hne]; simpl.
    + destruct (String.eqb_spec k k0); congruence.
    + now rewrite IH.
Qed.

Lemma get_tabulate (f : string -> cell) (k : string) (cols : list string) :
  get k (map (fun c => (c, f c)) cols)
  = if mem k cols then Some (f k) else None.
Proof.
  induction cols as [|c cols IH]; simpl; auto.
  destruct (String.eqb_spec k c) as [->|]; simpl; auto.
Qed.

Lemma combine_map_self {A B : Type} (f : A -> B) (l : list A) :
  combine l (map f l) = map (fun x => (x, f x)) l.
Proof. induction l; simpl; congruence. Qed.

Lemma coerce_column_present (df : DataFrame) (col : string) :
  mem col (columns df) = true ->
  coerce_column numeric_of_string df col
  = mkFrame (columns df) (map (coerced numeric_of_string col) (records df)).
Proof.
  intros H. unfold coerce_column, setitem. rewrite H.
  rewrite combine_map_self, map_map. reflexivity.
Qed.

Lemma coerce_column_absent (df : DataFrame) (col : string) :
  mem col (columns df) = false ->
  coerce_column numeric_of_string df col = df.
Proof. intros H. unfold coerce_column. now rewrite H. Qed.

Lemma coerced_numeric (col : string) (r : record) :
  exists q, get col (coerced numeric_of_string col r) = Some (Num q).
Proof.
  unfold coerced. rewrite get_set_field_same.
  destruct (get_default col NaN r) as [q|s|]; simpl.
  - now exists q.
  - destruct (numeric_of_string s) as [q|]; simpl; eauto.
  - eauto.
Qed.


Lemma normalize_nonempty (rows : list record) :
  empty (frame_of_rows rows) = false ->
  normalize numeric_of_string rows
  = coerce_column numeric_of_string
      (coerce_column numeric_of_string (frame_of_rows rows) "qty") "avg_price".
Proof. intros H. unfold normalize. now rewrite H. Qed.


Lemma normalize_records (rows : list record) :
  empty (frame_of_rows rows) = false ->
  normalize numeric_of_string rows
  = mkFrame (columns_of rows)
            (map (normalized_record numeric_of_string (columns_of rows)) rows).
Proof.
  intros H. rewrite (normalize_nonempty _ H).
  unfold normalized_record.
  destruct (mem "qty" (columns_of rows)) eqn:Eq.
  - rewrite (coerce_column_present (frame_of_rows rows)) by exact Eq.
    simpl columns. simpl records.
    destruct (mem "avg_price" (columns_of rows)) eqn:Ea.
    + rewrite coerce_column_present by exact Ea. simpl.
      now rewrite !map_map.
    + rewrite coerce_column_absent by exact Ea. now rewrite map_map.
  - rewrite (coerce_column_absent (frame_of_rows rows)) by exact Eq.
    destruct (mem "avg_price" (columns_of rows)) eqn:Ea.
    + rewrite coerce_column_present by exact Ea. simpl. now rewrite map_map.
    + rewrite coerce_column_absent by exact Ea. reflexivity.
Qed.

(** ** Record Normalizer *)

Lemma sheet_to_dataframe_result (sh : Spreadsheet) :
  snd (sheet_to_dataframe numeric_of_string sh)
  = rbind (open_sheet sh) (fun ws =>
    rbind (get_all_records ws) (fun rows =>
    Ok (normalize numeric_of_string rows))).
Proof.
  unfold sheet_to_dataframe, open_sheet, bind, try_except, call, ret; simpl.
  destruct (worksheet sh EXPECTED_SHEET_NAME) as [ws|e]; simpl.
  - destruct (get_all_records ws); reflexivity.
  - destruct (sheet1 sh) as [ws|e']; simpl; auto.
    destruct (get_all_records ws); reflexivity.
Qed.


Lemma get_coerced_other (k col : string) (r : record) :
  k <> col -> get k (coerced numeric_of_string col r) = get k r.
Proof. intros H. unfold coerced. now apply get_set_field_other. Qed.





Lemma empty_normalize (rows : list record) :
  empty (normalize numeric_of_string rows) = empty (frame_of_rows rows).
Proof.
  destruct (empty (frame_of_rows rows)) eqn:He.
  - unfold normalize. now rewrite He.
  - rewrite (normalize_records _ He). revert He.
    unfold empty, frame_of_rows; simpl.
    generalize (columns_of rows) as cols. intros cols.
    destruct rows; simpl; auto.
Qed.

(** A normalized frame holds numbers in [qty] and in [avg_price]. *)
Lemma normalized_record_numeric (cols : list string) (raw : record)
      (col : string) :
  col = "qty" \/ col = "avg_price" ->
  exists q,
    get_default col (Num (qz 0))
                (normalized_record numeric_of_string cols raw) = Num q.
Proof.
  intros Hc. unfold get_default, normalized_record.
  destruct Hc as [-> | ->].
  - destruct (mem "qty" cols) eqn:Eq.
    + destruct (coerced_numeric "qty"
                  (map (fun c => (c, get_default c NaN raw)) cols))
        as [q Hq].
      destruct (mem "avg_price" cols);
        rewrite ?get_coerced_other by discriminate; rewrite Hq; eauto.
    + destruct (mem "avg_price" cols);
        rewrite ?get_coerced_other by discriminate;
        rewrite get_tabulate, Eq; eauto.
  - destruct (mem "avg_price" cols) eqn:Ea.
    + match goal with
      | |- context [coerced _ "avg_price" ?r] =>
          destruct (coerced_numeric "avg_price" r) as [q Hq]
      end.
      rewrite Hq; eauto.
    + destruct (mem "qty" cols);
        rewrite ?get_coerced_other by discriminate;
        rewrite get_tabulate, Ea; eauto.
Qed.

Lemma normalized_record_present (cols : list string) (raw : record)
      (col : string) :
  col = "qty" \/ col = "avg_price" ->
  mem col cols = true ->
  exists q,
    get col (normalized_record numeric_of_string cols raw) = Some (Num q).
Proof.
  intros Hc Hm. destruct (normalized_record_numeric cols raw col Hc) as [q Hq].
  exists q. revert Hq. unfold get_default.
  destruct (get col (normalized_record numeric_of_string cols raw)) eqn:E.
  - now intros ->.
  - exfalso. revert E. unfold normalized_record.
    destruct Hc as [-> | ->]; rewrite Hm.
    + destruct (mem "avg_price" cols);
        rewrite ?get_coerced_other by discriminate;
        unfold coerced; now rewrite get_set_field_same.
    + unfold coerced at 1. now rewrite get_set_field_same.
Qed.

(** What [sheet_to_dataframe] hands to the aggregation: a column of
    numbers wherever [qty] or [avg_price] exists. *)
Lemma normalize_numeric (raws : list record) (col : string) :
  col = "qty" \/ col = "avg_price" ->
  empty (frame_of_rows raws) = false ->
  mem col (columns_of raws) = true ->
  numeric col (normalize numeric_of_string raws) = true.
Proof.
  intros Hc He Hm. rewrite (normalize_records raws He).
  unfold numeric; cbn [columns records]. rewrite Hm. cbn [andb].
  apply forallb_forall. intros r Hin. apply in_map_iff in Hin as (raw & <- & _).
  destruct (normalized_record_present (columns_of raws) raw col Hc Hm)
    as [q Hq].
  unfold get_default. now rewrite Hq.
Qed.

(** The frames of position records among the normalized ones: those of a
    non-empty table that has the two numeric columns, and an account and a
    type in every row. *)
Lemma normalized_position_records (raws : list record) :
  empty (frame_of_rows raws) = false ->
  mem "qty" (columns_of raws) = true ->
  mem "avg_price" (columns_of raws) = true ->
  keyed "account" (normalize numeric_of_string raws) = true ->
  keyed "type" (normalize numeric_of_string raws) = true ->
  position_records (normalize numeric_of_string raws) = true.
Proof.
  intros He Hq Ha Hk Ht. unfold position_records.
  rewrite empty_normalize, He, Hk, Ht.
  rewrite !normalize_numeric by auto. reflexivity.
Qed.

(** ** Aggregation Engine *)

Lemma qz_0 : qz 0 = 0%Qc.
Proof. reflexivity. Qed.

Lemma mem_app (k : string) (l1 l2 : list string) :
  mem k (l1 ++ l2) = mem k l1 || mem k l2.
Proof. induction l1; simpl; auto. rewrite IHl1. now rewrite orb_assoc. Qed.

Lemma mem_setitem (k col : string) (vals : list cell) (df : DataFrame) :
  k <> col -> mem k (columns (setitem col vals df)) = mem k (columns df).
Proof.
  intros H. unfold setitem; simpl. destruct (mem col (columns df)); auto.
  rewrite mem_app; simpl. destruct (String.eqb_spec k col); [congruence|].
  now rewrite !orb_false_r.
Qed.

Lemma records_setitem_get (k col : string) (vals : list cell)
      (df : DataFrame) :
  k <> col -> List.length vals = List.length (records df) ->
  map (get k) (records (setitem col vals df)) = map (get k) (records df).
Proof.
  intros Hk. unfold setitem; simpl. generalize (records df) as rs.
  intros rs. revert vals. induction rs as [|r rs IH]; intros [|v vals] Hl;
    simpl in *; try discriminate; auto.
  rewrite get_set_field_other by exact Hk. f_equal. apply IH. lia.
Qed.

Lemma records_setitem_get_default (k col : string) (d : cell)
      (vals : list cell) (df : DataFrame) :
  k <> col -> List.length vals = List.length (records df) ->
  map (get_default k d) (records (setitem col vals df))
  = map (get_default k d) (records df).
Proof.
  intros Hk Hl.
  assert (H := records_setitem_get k col vals df Hk Hl).
  revert H. generalize (records (setitem col vals df)) as l1.
  generalize (records df) as l2. intros l2 l1. revert l2.
  induction l1 as [|a l1 IH]; intros [|b l2] H; simpl in *;
    try discriminate; auto.
  injection H as Ha Hr. unfold get_default at 1 3. rewrite Ha.
  f_equal. now apply IH.
Qed.

Lemma series_mul_length (a b : list cell) (v : list Qc) :
  List.length a = List.length b ->
  series_mul a b = Ok v -> List.length v = List.length a.
Proof.
  revert b v. induction a as [|x a IH]; intros [|y b] v Hl H; simpl in *;
    try discriminate.
  - now inversion H.
  - destruct (filled x); simpl in H; [|discriminate].
    destruct (filled y); simpl in H; [|discriminate].
    destruct (series_mul a b) eqn:E; simpl in H; [|discriminate].
    inversion H; subst; simpl. f_equal. apply (IH b); [lia|exact E].
Qed.

Lemma series_mul_raises (a b : list cell) (e : exn) :
  series_mul a b = Raise e -> e = TypeError.
Proof.
  revert b. induction a as [|x a IH]; intros [|y b] H; simpl in *;
    try discriminate.
  destruct x, y; simpl in H; try (inversion H; reflexivity);
    destruct (series_mul a b) eqn:E; simpl in H; try discriminate;
    inversion H; subst; eapply IH; eassumption.
Qed.

Lemma series_mul_numeric (col1 col2 : string) (rs : list record) :
  forallb (fun r => match get_default col1 NaN r with
                    | Str _ => false | _ => true end) rs = true ->
  forallb (fun r => match get_default col2 NaN r with
                    | Str _ => false | _ => true end) rs = true ->
  exists v, series_mul (map (get_default col1 NaN) rs)
                       (map (get_default col2 NaN) rs) = Ok v.
Proof.
  induction rs as [|r rs IH]; simpl; intros H1 H2; eauto.
  apply andb_true_iff in H1 as [Ha H1]. apply andb_true_iff in H2 as [Hb H2].
  destruct (IH H1 H2) as [v Hv]. rewrite Hv.
  destruct (get_default col1 NaN r); try discriminate;
    destruct (get_default col2 NaN r); try discriminate; simpl; eauto.
Qed.

(** *** Percentages *)

Lemma share_is_share_value (t v : Qc) : share t v = Ok (share_value t v).
Proof.
  unfold share, share_value, py_div, truthy.
  destruct (Qc_eq_bool t (qz 0)); reflexivity.
Qed.

Lemma shares_are_percentages (t : Qc) (d : dict) :
  shares t d = Ok (percentages t d).
Proof.
  unfold shares, percentages. induction d as [|[k v] d IH]; simpl; auto.
  rewrite share_is_share_value; simpl. now rewrite IH.
Qed.

(** *** The outcomes of [analyze_portfolio] *)

Lemma analyze_empty (df : DataFrame) :
  empty df = true -> analyze_portfolio df = (Ok empty_summary, df).
Proof. intros H. unfold analyze_portfolio. now rewrite H. Qed.

Lemma analyze_value (df : DataFrame) (value : list Qc) :
  empty df = false ->
  mem "qty" (columns df) = true ->
  mem "avg_price" (columns df) = true ->
  series_mul (map (get_default "qty" NaN) (records df))
             (map (get_default "avg_price" NaN) (records df)) = Ok value ->
  let df1 := setitem "value" (map Num value) df in
  analyze_portfolio df
  = (if mem "account" (columns df)
     then if mem "type" (columns df)
          then Ok (summary_of df1 value)
          else Raise (KeyError "type")
     else Raise (KeyError "account"),
     df1).
Proof.
  intros He Hq Ha Hv df1. unfold analyze_portfolio, getitem.
  rewrite He, Hq, Ha, Hv. fold df1. f_equal.
  unfold df1. rewrite !mem_setitem by discriminate.
  destruct (mem "account" (columns df)); simpl; auto.
  destruct (mem "type" (columns df)); simpl; auto.
  now rewrite !shares_are_percentages.
Qed.

Lemma value_length (df : DataFrame) (value : list Qc) :
  series_mul (map (get_default "qty" NaN) (records df))
             (map (get_default "avg_price" NaN) (records df)) = Ok value ->
  List.length (map Num value) = List.length (records df).
Proof.
  intros H. apply series_mul_length in H; rewrite !length_map in *; auto.
Qed.

(** Every way [analyze_portfolio] can end. *)
Lemma analyze_cases (df : DataFrame) :
  (empty df = true /\ analyze_portfolio df = (Ok empty_summary, df))
  \/ (exists k, analyze_portfolio df = (Raise (KeyError k), df)
                /\ (k = "qty" \/ k = "avg_price")
                /\ mem k (columns df) = false)
  \/ analyze_portfolio df = (Raise TypeError, df)
  \/ (exists value,
        List.length (map Num value) = List.length (records df)
        /\ let df1 := setitem "value" (map Num value) df in
           (analyze_portfolio df = (Ok (summary_of df1 value), df1)
            \/ exists k, analyze_portfolio df = (Raise (KeyError k), df1))).
Proof.
  destruct (empty df) eqn:He.
  { left. split; auto. now apply analyze_empty. }
  right.
  destruct (mem "qty" (columns df)) eqn:Hq.
  2:{ left. exists "qty". repeat split; auto.
      unfold analyze_portfolio, getitem. now rewrite He, Hq. }
  destruct (mem "avg_price" (columns df)) eqn:Ha.
  2:{ left. exists "avg_price". repeat split; auto.
      unfold analyze_portfolio, getitem. now rewrite He, Hq, Ha. }
  right.
  destruct (series_mul (map (get_default "qty" NaN) (records df))
                       (map (get_default "avg_price" NaN) (records df)))
    as [value|e] eqn:Hv.
  - right. exists value. split; [now apply value_length|].
    intros df1. unfold df1. rewrite (analyze_value df value He Hq Ha Hv).
    destruct (mem "account" (columns df)); [|right; eauto].
    destruct (mem "type" (columns df)); [left; auto|right; eauto].
  - left. assert (e = TypeError) by (eapply series_mul_raises; eauto).
    subst. unfold analyze_portfolio, getitem. now rewrite He, Hq, Ha, Hv.
Qed.

(** *** Sums over groups *)

Lemma sum_nil : sum [] = 0%Qc.
Proof. reflexivity. Qed.

Lemma sum_cons (v : Qc) (l : list Qc) : sum (v :: l) = (v + sum l)%Qc.
Proof. reflexivity. Qed.

Arguments sum : simpl never.






Lemma percentages_zero_total (d : dict) (k : cell) (p : Qc) :
  In (k, p) (percentages (qz 0) d) -> p = qz 0.
Proof.
  unfold percentages. intros H. apply in_map_iff in H as [[k' v] [H _]].
  unfold share_value, truthy in H. simpl in H.
  replace (Qc_eq_bool (qz 0) (qz 0)) with true in H.
  - simpl in H. now inversion H.
  - symmetry. unfold Qc_eq_bool. now destruct (Qc_eq_dec (qz 0) (qz 0)).
Qed.

Ltac split_andb :=
  repeat match goal with
         | H : _ && _ = true |- _ =>
             apply andb_true_iff in H; destruct H
         end.




(** C3.  [analyze_portfolio] never raises a division error, and whenever
    the summary it returns has total 0, every entry of every percentage
    map of that summary is 0. *)
Theorem zero_total_safety (df : DataFrame) :
  fst (analyze_portfolio df) <> Raise ZeroDivisionError
  /\ forall s,
       fst (analyze_portfolio df) = Ok s ->
       total s = qz 0 ->
       forall pcts,
         by_account_pct s = Some pcts \/ by_type_pct s = Some pcts ->
         forall k p, In (k, p) pcts -> p = qz 0.
Proof.
  destruct (analyze_cases df)
    as [[_ E] | [(k & E & _) | [E | (value & _ & [E | [k E]])]]];
    rewrite E; simpl; (split; [discriminate|]); intros s Hs;
    try discriminate; inversion Hs; subst s; clear Hs; simpl.
  - intros _ pcts [H|H]; discriminate.
  - intros Ht pcts [H|H] k p Hin; inversion H; subst pcts;
      rewrite Ht in Hin; eapply percentages_zero_total; eassumption.
Qed.

(** C5 (as amended).  On every empty frame [analyze_portfolio] returns
    normally, with the summary of its first [return]: total 0, empty
    by-account and by-type maps, no rows, and neither of the two percentage
    maps; the frame is left as it was. *)
Theorem empty_input_summary (df : DataFrame) :
  empty df = true ->
  analyze_portfolio df
  = (Ok (mkSummary (qz 0) [] None [] None []), df).
Proof. intros H. unfold analyze_portfolio. now rewrite H. Qed.



(** ** Handlers and the refresh loop *)

Lemma bind_attempt {A B : Type} (m : io A) (k : result A -> io B) :
  bind (attempt m) k = (fst m ++ fst (k (snd m)), snd (k (snd m))).
Proof. reflexivity. Qed.

Lemma count_app (p : event -> bool) (t1 t2 : list event) :
  count p (t1 ++ t2) = (count p t1 + count p t2)%nat.
Proof. unfold count. now rewrite filter_app, length_app. Qed.

(** Every way fetching the rows can go. *)
Lemma fetch_cases (src : Source) :
  let f := fetch numeric_of_string src in
  count is_connect (fst f) = 1%nat
  /\ (count is_get_all_records (fst f) <= 1)%nat
  /\ count is_answer (fst f) = 0%nat
  /\ count is_sleep (fst f) = 0%nat.
Proof.
  unfold fetch, connect_gsheet, sheet_to_dataframe, bind, try_except, call,
    ret.
  destruct src as [sh|e]; simpl; [|repeat split; eauto].
  destruct (worksheet sh EXPECTED_SHEET_NAME) as [ws|e]; simpl.
  - destruct (get_all_records ws); simpl; repeat split; eauto.
  - destruct (sheet1 sh) as [ws|e']; simpl; [|repeat split; eauto].
    destruct (get_all_records ws); simpl; repeat split; eauto.
Qed.

Lemma fetch_result (src : Source) :
  snd (fetch numeric_of_string src)
  = rbind src (fun sh => rbind (open_sheet sh) (fun ws =>
    rbind (get_all_records ws) (fun rows =>
    Ok (normalize numeric_of_string rows)))).
Proof.
  unfold fetch, connect_gsheet, bind, call. destruct src as [sh|e]; simpl; auto.
  apply sheet_to_dataframe_result.
Qed.

(** C6.  Whenever fetching the rows fails with [e], each of the three
    query handlers makes no further remote call, sends one reply, the
    error description built from [e], and returns normally: no exception
    leaves the handler.  The remote calls of the failed fetch are the only
    ones of the run: one connection, at most one read of the rows. *)
Theorem query_failure_isolation (src : Source) (e : exn) :
  snd (fetch numeric_of_string src) = Raise e ->
  let t := fst (fetch numeric_of_string src) in
  cmd_portfolio numeric_of_string float_of_string str_of_num src
  = (t ++ [LogException "Ошибка чтения Google Sheets" e;
           Answer (source_error_reply e)], Ok tt)
  /\ cmd_analysis numeric_of_string str_of_num src
     = (t ++ [Answer (source_error_reply e)], Ok tt)
  /\ cmd_rows numeric_of_string float_of_string str_of_num src
     = (t ++ [Answer (source_error_reply e)], Ok tt)
  /\ count is_connect t = 1%nat
  /\ (count is_get_all_records t <= 1)%nat
  /\ count is_answer t = 0%nat.
Proof.
  intros H t.
  unfold cmd_portfolio, cmd_analysis, cmd_rows. rewrite !bind_attempt.
  fold t. rewrite H.
  destruct (fetch_cases src) as (Hc & Hg & Ha & _).
  fold t in Hc, Hg, Ha.
  repeat split; auto.
Qed.

Lemma refresh_no_sleep_no_answer (src : Source) :
  count is_sleep (fst (refresh numeric_of_string src)) = 0%nat
  /\ count is_answer (fst (refresh numeric_of_string src)) = 0%nat.
Proof.
  destruct (fetch_cases src) as (_ & _ & Ha & Hs).
  unfold refresh, bind, lift, emit.
  destruct (snd (fetch numeric_of_string src)) as [df|e]; cbn [fst snd]; auto.
  destruct (fst (analyze_portfolio df)) as [s|e]; cbn [fst snd];
    rewrite ?app_nil_r, ?count_app, ?Ha, ?Hs; auto.
Qed.

(** One turn of the loop: the events of the guarded block, a log entry
    for the failure if it failed, then the sleep. *)
Lemma periodic_cycle_events (src : Source) :
  periodic_cycle numeric_of_string src
  = (fst (refresh numeric_of_string src)
       ++ match snd (refresh numeric_of_string src) with
          | Ok _ => []
          | Raise e => [LogException "Periodic task error" e]
          end
       ++ [Sleep 1800],
     Ok tt).
Proof.
  unfold periodic_cycle, bind, try_except, emit.
  destruct (refresh numeric_of_string src) as [t [[]|e]]; cbn [fst snd].
  - reflexivity.
  - now rewrite <- app_assoc.
Qed.

Lemma refresh_success (src : Source) :
  snd (refresh numeric_of_string src) = Ok tt ->
  exists df s,
    snd (fetch numeric_of_string src) = Ok df
    /\ fst (analyze_portfolio df) = Ok s
    /\ fst (refresh numeric_of_string src)
       = fst (fetch numeric_of_string src)
           ++ [LogInfo "Periodic update — total: %s" (total s)].
Proof.
  unfold refresh, bind, lift, emit.
  destruct (fetch numeric_of_string src) as [t [df|e]]; cbn [fst snd];
    [|discriminate].
  destruct (analyze_portfolio df) as [[s|e] df'] eqn:Ea; cbn [fst snd];
    [|discriminate].
  intros _. exists df, s. rewrite Ea. now rewrite app_nil_l.
Qed.

Lemma periodic_task_runs (n : nat) (env : nat -> Source) (i : nat) :
  snd (periodic_task numeric_of_string n env i) = Ok tt
  /\ count is_sleep (fst (periodic_task numeric_of_string n env i)) = n
  /\ Forall (fun ev => is_sleep ev = true -> ev = Sleep 1800)
            (fst (periodic_task numeric_of_string n env i)).
Proof.
  revert i. induction n as [|n IH]; intros i; simpl.
  - repeat split; constructor.
  - destruct (IH (S i)) as (Hr & Hc & Hf).
    unfold bind. rewrite periodic_cycle_events. cbn [fst snd].
    destruct (refresh_no_sleep_no_answer (env i)) as [Hs _].
    split; [exact Hr|]. split.
    + rewrite !count_app, Hs, Hc.
      destruct (snd (refresh numeric_of_string (env i))); reflexivity.
    + assert (H1 : Forall (fun ev => is_sleep ev = true -> ev = Sleep 1800)
                          (fst (refresh numeric_of_string (env i)))).
      { unfold count in Hs. apply Forall_forall. intros ev Hin Hev.
        assert (Hin' : In ev (filter is_sleep
                                (fst (refresh numeric_of_string (env i)))))
          by (apply filter_In; auto).
        destruct (filter is_sleep (fst (refresh numeric_of_string (env i))));
          [destruct Hin'|discriminate]. }
      assert (H2 : Forall (fun ev => is_sleep ev = true -> ev = Sleep 1800)
                          (match snd (refresh numeric_of_string (env i)) with
                           | Ok _ => []
                           | Raise e => [LogException "Periodic task error" e]
                           end)).
      { destruct (snd (refresh numeric_of_string (env i)));
          repeat constructor; discriminate. }
      assert (H3 : Forall (fun ev => is_sleep ev = true -> ev = Sleep 1800)
                          [Sleep 1800]) by (repeat constructor).
      rewrite !Forall_app. auto.
Qed.

(** C7.  Every turn of the refresh loop ends normally with the sleep of
    1800 seconds: when the guarded fetch, normalize and aggregate attempt
    fails with [e], the turn logs [e] and then sleeps; when it succeeds,
    it has logged the total and then sleeps.  Hence for every [n] the loop
    runs [n] turns, whatever fails in them: no exception leaves it, and it
    has slept [n] times, 1800 seconds each. *)
Theorem refresh_loop_liveness :
  (forall (src : Source) (e : exn),
      snd (refresh numeric_of_string src) = Raise e ->
      periodic_cycle numeric_of_string src
      = (fst (refresh numeric_of_string src)
           ++ [LogException "Periodic task error" e; Sleep 1800], Ok tt))
  /\ (forall (src : Source),
         snd (refresh numeric_of_string src) = Ok tt ->
         exists df s,
           snd (fetch numeric_of_string src) = Ok df
           /\ fst (analyze_portfolio df) = Ok s
           /\ periodic_cycle numeric_of_string src
              = (fst (fetch numeric_of_string src)
                   ++ [LogInfo "Periodic update — total: %s" (total s);
                       Sleep 1800], Ok tt))
  /\ (forall (n : nat) (env : nat -> Source) (i : nat),
         snd (periodic_task numeric_of_string n env i) = Ok tt
         /\ count is_sleep (fst (periodic_task numeric_of_string n env i)) = n
         /\ Forall (fun ev => is_sleep ev = true -> ev = Sleep 1800)
                   (fst (periodic_task numeric_of_string n env i))).
Proof.
  split; [|split].
  - intros src e H. rewrite periodic_cycle_events, H. reflexivity.
  - intros src H. destruct (refresh_success src H) as (df & s & Hf & Ha & Ht).
    exists df, s. repeat split; auto.
    rewrite periodic_cycle_events, H, Ht. now rewrite <- app_assoc.
  - apply periodic_task_runs.
Qed.

(** C10.  In the summary-analysis handler only the fetch is guarded.
    Whenever the fetch succeeds with rows whose frame is not empty and in
    which no row has a [qty] cell, or none has an [avg_price] cell, the
    aggregation raises a [KeyError] on that column, the handler lets it
    through, and no reply is sent: the only events of the run are those of
    the fetch. *)
Theorem analysis_missing_column (src : Source) (rows : list record) :
  snd (fetch numeric_of_string src) = Ok (normalize numeric_of_string rows) ->
  empty (frame_of_rows rows) = false ->
  mem "qty" (columns_of rows) = false
  \/ mem "avg_price" (columns_of rows) = false ->
  exists col,
    (col = "qty" \/ col = "avg_price")
    /\ mem col (columns_of rows) = false
    /\ cmd_analysis numeric_of_string str_of_num src
       = (fst (fetch numeric_of_string src), Raise (KeyError col))
    /\ count is_answer (fst (cmd_analysis numeric_of_string str_of_num src))
       = 0%nat.
Proof.
  intros Hf He Hm.
  assert (Hdf : normalize numeric_of_string rows
                = mkFrame (columns_of rows)
                    (map (normalized_record numeric_of_string
                            (columns_of rows)) rows))
    by now apply normalize_records.
  assert (He' : empty (normalize numeric_of_string rows) = false)
    by now rewrite empty_normalize.
  assert (Hcols : columns (normalize numeric_of_string rows)
                  = columns_of rows) by now rewrite Hdf.
  assert (exists col,
             (col = "qty" \/ col = "avg_price")
             /\ mem col (columns_of rows) = false
             /\ fst (analyze_portfolio (normalize numeric_of_string rows))
                = Raise (KeyError col)) as (col & Hc & Hmc & Ha).
  { unfold analyze_portfolio, getitem. rewrite He', Hcols.
    destruct (mem "qty" (columns_of rows)) eqn:Eq.
    - destruct Hm as [Hm|Hm]; [discriminate|]. rewrite Hm.
      exists "avg_price". auto.
    - exists "qty". auto. }
  exists col. split; [exact Hc|]. split; [exact Hmc|].
  destruct (fetch_cases src) as (_ & _ & Hans & _).
  unfold cmd_analysis. rewrite bind_attempt, Hf. unfold bind, lift.
  rewrite Ha. cbn [fst snd]. rewrite app_nil_r. split; auto.
Qed.

(** ** Number formatting *)

Lemma uint_digits_digits (u : Decimal.uint) :
  forallb is_digit (uint_digits u) = true.
Proof. induction u; simpl; auto. Qed.

Lemma forallb_repeat_zero (n : nat) :
  forallb is_digit (repeat "0"%char n) = true.
Proof. induction n; simpl; auto. Qed.

Lemma pad_left_digits (n : nat) (l : list ascii) :
  forallb is_digit l = true -> forallb is_digit (pad_left n l) = true.
Proof.
  intros H. unfold pad_left. rewrite forallb_app, forallb_repeat_zero.
  exact H.
Qed.

Lemma pad_left_length (n : nat) (l : list ascii) :
  (n <= List.length (pad_left n l))%nat.
Proof. unfold pad_left. rewrite length_app, repeat_length. lia. Qed.

Lemma forallb_rev {A : Type} (p : A -> bool) (l : list A) :
  forallb p (rev l) = forallb p l.
Proof.
  induction l as [|a l IH]; simpl; auto.
  rewrite forallb_app, IH. simpl. rewrite andb_true_r. apply andb_comm.
Qed.

Lemma strip_sign_digit (c : ascii) (l : list ascii) :
  is_digit c = true -> strip_sign (c :: l) = c :: l.
Proof.
  destruct c as [[] [] [] [] [] [] [] []]; try reflexivity; discriminate.
Qed.

Lemma group_rev_step (a b c d : ascii) (l : list ascii) :
  group_rev (a :: b :: c :: d :: l)
  = a :: b :: c :: ","%char :: group_rev (d :: l).
Proof. reflexivity. Qed.

Lemma grouped_rev_group_rev (l : list ascii) :
  l <> [] -> forallb is_digit l = true -> grouped_rev (group_rev l) = true.
Proof.
  assert (H : forall n l, (List.length l <= n)%nat -> l <> [] ->
                          forallb is_digit l = true ->
                          grouped_rev (group_rev l) = true).
  { clear l. induction n as [|n IH]; intros l Hl Hne Hd.
    - destruct l; [congruence|simpl in Hl; lia].
    - destruct l as [|a [|b [|c [|d l]]]]; try congruence;
        cbn [forallb] in Hd; split_andb.
      + simpl. now rewrite H.
      + simpl. now rewrite H, H0.
      + simpl. now rewrite H, H0, H1.
      + rewrite group_rev_step.
        assert (Hr : grouped_rev (group_rev (d :: l)) = true).
        { apply IH; [simpl in *; lia|discriminate|].
          cbn [forallb]. now rewrite H2, H3. }
        destruct (group_rev (d :: l)) as [|g gs] eqn:Eg;
          [discriminate|].
        cbn [grouped_rev]. rewrite H, H0, H1. exact Hr. }
  apply (H (List.length l)). lia.
Qed.

(** The leading character of a grouped integer part is a digit. *)
Lemma grouped_rev_head (g : list ascii) :
  grouped_rev g = true ->
  exists c l0, rev g = c :: l0 /\ is_digit c = true.
Proof.
  assert (H : forall n g, (List.length g <= n)%nat -> grouped_rev g = true ->
                          exists c l0, rev g = c :: l0 /\ is_digit c = true).
  { clear g. induction n as [|n IH]; intros g Hl Hg.
    - destruct g; [discriminate|simpl in Hl; lia].
    - destruct g as [|a [|b [|c [|s rest]]]]; cbn [grouped_rev] in Hg;
        try discriminate; split_andb.
      + exists a, []. auto.
      + exists b, [a]. auto.
      + exists c, [b; a]. auto.
      + destruct (IH rest) as (c0 & l0 & Hr & Hc); auto.
        { simpl in Hl. lia. }
        exists c0, (l0 ++ [s; c; b; a]). split; auto.
        change (a :: b :: c :: s :: rest) with ([a; b; c; s] ++ rest).
        rewrite rev_app_distr, Hr. reflexivity. }
  apply (H (List.length g)). lia.
Qed.

(** The digits [format_f] cuts into integer and fraction part. *)
Lemma format_digits (d : nat) (x : Qc) :
  let ds := pad_left (S d) (uint_digits (N.to_uint (scaled d x))) in
  let k := (List.length ds - d)%nat in
  forallb is_digit (firstn k ds) = true
  /\ forallb is_digit (skipn k ds) = true
  /\ firstn k ds <> []
  /\ List.length (skipn k ds) = d.
Proof.
  intros ds k.
  assert (Hd : forallb is_digit ds = true)
    by (apply pad_left_digits, uint_digits_digits).
  assert (Hl : (S d <= List.length ds)%nat) by apply pad_left_length.
  rewrite <- (firstn_skipn k ds), forallb_app in Hd.
  apply andb_true_iff in Hd as [H1 H2].
  repeat split; auto.
  - intros E. apply (f_equal (@List.length ascii)) in E.
    rewrite length_firstn in E. simpl in E. unfold k in E. lia.
  - rewrite length_skipn. unfold k. lia.
Qed.

Lemma is_money_format (x : Qc) : is_money (format_f true 2 x) = true.
Proof.
  unfold format_f, is_money.
  destruct (format_digits 2 x) as (Hi & Hf & Hne & Hl).
  set (ds := pad_left 3 (uint_digits (N.to_uint (scaled 2 x)))) in *.
  set (k := (List.length ds - 2)%nat) in *.
  destruct (skipn k ds) as [|f1 [|f2 [|]]]; try discriminate. clear Hl.
  cbn [forallb] in Hf. split_andb.
  rewrite list_ascii_of_string_of_list_ascii.
  assert (Hg : grouped_rev (group_rev (rev (firstn k ds))) = true).
  { apply grouped_rev_group_rev.
    - intros E. apply Hne. rewrite <- (rev_involutive (firstn k ds)), E.
      reflexivity.
    - now rewrite forallb_rev. }
  destruct (grouped_rev_head _ Hg) as (c & l0 & Hr & Hc).
  assert (Hs : strip_sign
                 ((if (Qnum x <? 0)%Z then ["-"%char] else [])
                    ++ group3 (firstn k ds) ++ ["."%char; f1; f2])
               = group3 (firstn k ds) ++ ["."%char; f1; f2]).
  { destruct (Qnum x <? 0)%Z; [reflexivity|].
    unfold group3. rewrite Hr. cbn [app]. now apply strip_sign_digit. }
  rewrite Hs, rev_app_distr. unfold group3. rewrite rev_involutive.
  cbn [rev app]. now rewrite H, H0, Hg.
Qed.

Lemma plain_digits_format (d : nat) (x : Qc) :
  let ds := pad_left (S d) (uint_digits (N.to_uint (scaled d x))) in
  let k := (List.length ds - d)%nat in
  list_ascii_of_string (format_f false d x)
  = (if (Qnum x <? 0)%Z then ["-"%char] else [])
      ++ firstn k ds ++ "."%char :: skipn k ds
  /\ strip_sign (list_ascii_of_string (format_f false d x))
     = firstn k ds ++ "."%char :: skipn k ds.
Proof.
  intros ds k. unfold format_f. fold ds. fold k.
  rewrite list_ascii_of_string_of_list_ascii. split; [reflexivity|].
  destruct (format_digits d x) as (Hi & _ & Hne & _). fold ds k in Hi, Hne.
  destruct (Qnum x <? 0)%Z; [reflexivity|].
  destruct (firstn k ds) as [|c l]; [congruence|].
  cbn [forallb] in Hi. apply andb_true_iff in Hi as [Hc _].
  cbn [app]. now apply strip_sign_digit.
Qed.


Lemma is_one_place_format (x : Qc) :
  is_one_place (format_f false 1 x) = true.
Proof.
  unfold is_one_place.
  destruct (plain_digits_format 1 x) as [_ Hs]. rewrite Hs. clear Hs.
  destruct (format_digits 1 x) as (Hi & Hf & Hne & Hl).
  set (ds := pad_left 2 (uint_digits (N.to_uint (scaled 1 x)))) in *.
  set (k := (List.length ds - 1)%nat) in *.
  destruct (skipn k ds) as [|f1 [|]]; try discriminate. clear Hl.
  cbn [forallb] in Hf. split_andb.
  rewrite rev_app_distr. cbn [rev app].
  rewrite H, forallb_rev, Hi, length_rev. simpl.
  destruct (firstn k ds); [congruence|reflexivity].
Qed.

(** ** Replies *)

Lemma portfolio_line_normalized (cols : list string) (raw : record) :
  let r := normalized_record numeric_of_string cols raw in
  exists line v,
    portfolio_line float_of_string str_of_num r = Ok (line, Some v)
    /\ listing_line_shape str_of_num r line.
Proof.
  intros r. unfold portfolio_line.
  destruct (normalized_record_numeric cols raw "qty") as [q Hq]; auto.
  destruct (normalized_record_numeric cols raw "avg_price") as [a Ha]; auto.
  fold r in Hq, Ha. rewrite Hq, Ha. cbn [py_float rbind fmul format_float].
  do 2 eexists. split; [reflexivity|].
  exists (format_f true 2 (q * a)). split; [apply is_money_format|].
  unfold py_str. rewrite Hq, Ha. reflexivity.
Qed.

Lemma portfolio_loop_normalized (cols : list string) (raws : list record)
      (t : Qc) :
  exists lines total,
    portfolio_loop float_of_string str_of_num
      (map (normalized_record numeric_of_string cols) raws) (Some t)
    = Ok (lines, Some total)
    /\ Forall2 (listing_line_shape str_of_num)
               (map (normalized_record numeric_of_string cols) raws) lines.
Proof.
  revert t. induction raws as [|raw raws IH]; intros t; cbn [map portfolio_loop].
  - exists [], t. split; [reflexivity|constructor].
  - destruct (portfolio_line_normalized cols raw) as (line & v & Hl & Hs).
    rewrite Hl. cbn [rbind snd fst fadd].
    destruct (IH (t + v)%Qc) as (lines & total & Hr & Hf).
    rewrite Hr. cbn [rbind fst snd].
    exists (line :: lines), total. split; [reflexivity|].
    constructor; assumption.
Qed.

Lemma rows_line_normalized (cols : list string) (raw : record) (i : nat) :
  let r := normalized_record numeric_of_string cols raw in
  exists line,
    rows_line float_of_string str_of_num i r = Ok line
    /\ preview_line_shape str_of_num r line.
Proof.
  intros r. unfold rows_line.
  destruct (normalized_record_numeric cols raw "qty") as [q Hq]; auto.
  destruct (normalized_record_numeric cols raw "avg_price") as [a Ha]; auto.
  fold r in Hq, Ha. rewrite Hq, Ha. cbn [py_float rbind fmul format_float].
  eexists. split; [reflexivity|].
  exists i, (format_f true 2 (q * a)). split; [apply is_money_format|].
  unfold py_str. rewrite Hq, Ha. reflexivity.
Qed.

Lemma rows_loop_normalized (cols : list string) (raws : list record)
      (i : nat) (text : string) :
  exists lines,
    rows_loop float_of_string str_of_num i
      (map (normalized_record numeric_of_string cols) raws) text
    = Ok (fold_left String.append lines text)
    /\ Forall2 (preview_line_shape str_of_num)
               (map (normalized_record numeric_of_string cols) raws) lines.
Proof.
  revert i text.
  induction raws as [|raw raws IH]; intros i text; cbn [map rows_loop].
  - exists []. split; [reflexivity|constructor].
  - destruct (rows_line_normalized cols raw i) as (line & Hl & Hs).
    rewrite Hl. cbn [rbind].
    destruct (IH (S i) (text ++ line)%string) as (lines & Hr & Hf).
    rewrite Hr. exists (line :: lines). split; [reflexivity|].
    constructor; assumption.
Qed.

Lemma group_lines (key : string) (pcts groups : dict) :
  exists lines,
    rmap (group_line str_of_num key (Some pcts)) groups = Ok lines
    /\ Forall2 (group_line_shape str_of_num) groups lines.
Proof.
  induction groups as [|kv groups (lines & Hr & Hf)]; cbn [rmap].
  - exists []. split; [reflexivity|constructor].
  - unfold group_line at 1. cbn [subscript rbind]. rewrite Hr.
    cbn [rbind]. eexists. split; [reflexivity|].
    constructor; [|exact Hf].
    exists (format_f true 2 (snd kv)),
      (format_f false 1 (dict_get (fst kv) (qz 0) pcts)).
    split; [apply is_money_format|]. split; [apply is_one_place_format|].
    reflexivity.
Qed.

Lemma nonzero_total_summary (df : DataFrame) (s : Summary) :
  fst (analyze_portfolio df) = Ok s ->
  Qc_eq_bool (total s) (qz 0) = false ->
  exists pa pt, by_account_pct s = Some pa /\ by_type_pct s = Some pt.
Proof.
  intros Hs Ht. destruct (analyze_cases df)
    as [[_ E] | [(k & E & _) | [E | (value & _ & [E | [k E]])]]];
    rewrite E in Hs; cbn [fst] in Hs; try discriminate;
    inversion Hs; subst s; clear Hs.
  - discriminate.
  - unfold summary_of. cbn. eauto.
Qed.


(** * Further properties *)

(** ** Reading the sheet *)

(** X1.  [sheet_to_dataframe] reads the worksheet named "portfolio" when
    it opens, and then never touches the first sheet.  When opening it
    fails, whatever the error, the first sheet is opened instead and what
    the call returns or raises is decided by the first sheet alone: the
    error of the named lookup is dropped. *)
Theorem worksheet_fallback (sh : Spreadsheet) :
  (forall ws,
      worksheet sh EXPECTED_SHEET_NAME = Ok ws ->
      sheet_to_dataframe numeric_of_string sh
      = ([OpenWorksheet "portfolio"; GetAllRecords],
         rbind (get_all_records ws) (fun rows =>
         Ok (normalize numeric_of_string rows))))
  /\ (forall e,
         worksheet sh EXPECTED_SHEET_NAME = Raise e ->
         snd (sheet_to_dataframe numeric_of_string sh)
         = rbind (sheet1 sh) (fun ws =>
           rbind (get_all_records ws) (fun rows =>
           Ok (normalize numeric_of_string rows)))
         /\ exists t,
             fst (sheet_to_dataframe numeric_of_string sh)
             = OpenWorksheet "portfolio" :: OpenSheet1 :: t
             /\ count is_get_all_records t
                = match sheet1 sh with Ok _ => 1%nat | Raise _ => 0%nat end).
Proof.
  unfold sheet_to_dataframe, bind, try_except, call, ret. split.
  - intros ws H. rewrite H. cbn [fst snd app].
    destruct (get_all_records ws); reflexivity.
  - intros e H. rewrite H. cbn [fst snd app].
    destruct (sheet1 sh) as [ws|e']; cbn [fst snd app rbind].
    + destruct (get_all_records ws); cbn [fst snd app rbind];
        (split; [reflexivity|]); eexists; split; reflexivity.
    + split; [reflexivity|]. exists []. split; reflexivity.
Qed.

(** ** The frame the rows make *)

Lemma mem_add_keys (k : string) (r : record) (cols : list string) :
  mem k (add_keys cols r) = mem k cols || has_key k r.
Proof.
  unfold has_key. revert cols.
  induction r as [|[k0 v] r IH]; intros cols; cbn [add_keys get].
  - now rewrite orb_false_r.
  - rewrite IH. destruct (mem k0 cols) eqn:E.
    + destruct (String.eqb_spec k k0) as [->|]; [|reflexivity].
      rewrite E. reflexivity.
    + rewrite mem_app. cbn [mem]. rewrite orb_false_r.
      destruct (String.eqb k k0); [now rewrite !orb_true_r|].
      now rewrite orb_false_r.
Qed.

Lemma mem_fold_add_keys (k : string) (rows : list record)
      (cols : list string) :
  mem k (fold_left add_keys rows cols) = mem k cols || existsb (has_key k) rows.
Proof.
  revert cols. induction rows as [|r rows IH]; intros cols; cbn.
  - now rewrite orb_false_r.
  - rewrite IH, mem_add_keys. now rewrite orb_assoc.
Qed.

Lemma mem_In (k : string) (l : list string) : mem k l = true <-> In k l.
Proof.
  induction l as [|a l IH]; cbn; [split; [discriminate|intros []]|].
  rewrite orb_true_iff, IH. destruct (String.eqb_spec k a); split;
    intros [H|H]; auto; try discriminate; congruence.
Qed.

Lemma NoDup_add_keys (r : record) (cols : list string) :
  NoDup cols -> NoDup (add_keys cols r).
Proof.
  revert cols. induction r as [|[k v] r IH]; intros cols H; cbn; auto.
  apply IH. destruct (mem k cols) eqn:E; auto.
  apply NoDup_app; auto.
  - repeat constructor. intros [].
  - intros x Hx [<-|[]]. apply mem_In in Hx. congruence.
Qed.

(** X2.  A column exists in the frame built from the rows exactly when
    some row has a cell under that name, and no column name occurs twice
    in the column index. *)
Theorem column_exists_iff (rows : list record) (col : string) :
  mem col (columns (frame_of_rows rows)) = existsb (has_key col) rows
  /\ NoDup (columns (frame_of_rows rows)).
Proof.
  cbn [frame_of_rows columns]. unfold columns_of. split.
  - now rewrite mem_fold_add_keys.
  - assert (H : forall rs cols, NoDup cols ->
                                NoDup (fold_left add_keys rs cols)).
    { induction rs as [|r rs IH]; intros cols Hc; cbn; auto.
      apply IH. now apply NoDup_add_keys. }
    apply H. constructor.
Qed.








(** ** Group keys *)

Lemma string_compare_refl (s : string) : String.compare s s = Eq.
Proof.
  induction s as [|a s IH]; cbn; auto.
  unfold Ascii.compare. now rewrite N.compare_refl.
Qed.

Lemma cell_compare_eq (a b : cell) : cell_compare a b = Eq -> a = b.
Proof.
  destruct a as [x|s|], b as [y|t|]; cbn; try discriminate; auto.
  - intros H. apply Qceq_alt in H. now subst.
  - intros H. apply String.compare_eq_iff in H. now subst.
Qed.

Lemma cell_compare_refl (a : cell) : cell_compare a a = Eq.
Proof.
  destruct a as [x|s|]; cbn; auto.
  - now apply Qceq_alt.
  - apply string_compare_refl.
Qed.

Lemma cell_compare_antisym (a b : cell) :
  cell_compare a b = CompOpp (cell_compare b a).
Proof.
  destruct a as [x|s|], b as [y|t|]; cbn; auto.
  - unfold Qccompare. symmetry. apply Qcompare_antisym.
  - apply String.compare_antisym.
Qed.

Lemma cell_lt_trans (a b c : cell) :
  cell_compare a b = Lt -> cell_compare b c = Lt -> cell_compare a c = Lt.
Proof.
  destruct a as [x|s|], b as [y|t|], c as [z|u|]; cbn;
    try discriminate; auto.
  - intros H1 H2. apply Qclt_alt in H1, H2. apply Qclt_alt.
    eapply Qclt_trans; eassumption.
  - intros H1 H2.
    apply OrderedTypeEx.String_as_OT.cmp_lt in H1, H2.
    apply OrderedTypeEx.String_as_OT.cmp_lt.
    eapply OrderedTypeEx.String_as_OT.lt_trans; eassumption.
Qed.

Lemma cell_gt_lt (a b : cell) :
  cell_compare a b = Gt -> cell_compare b a = Lt.
Proof.
  intros H. rewrite cell_compare_antisym, H. reflexivity.
Qed.

Lemma key_eqb_eq (k k' : cell) : key_eqb k k' = true <-> k = k'.
Proof.
  unfold key_eqb. split.
  - destruct (cell_compare k k') eqn:E; try discriminate.
    intros _. now apply cell_compare_eq.
  - intros ->. now rewrite cell_compare_refl.
Qed.

Lemma dict_get_absent (k : cell) (d : dict) :
  Forall (fun e => cell_compare k (fst e) = Lt) d ->
  dict_get k (qz 0) d = qz 0.
Proof.
  induction 1 as [|[k0 v0] d H _ IH]; cbn; auto.
  cbn in H. now rewrite H.
Qed.

Lemma group_add_keys (k : cell) (v : Qc) (d : dict) (k1 : cell) :
  In k1 (map fst (group_add k v d)) <-> k1 = k \/ In k1 (map fst d).
Proof.
  induction d as [|[k0 v0] d IH]; cbn.
  - split; intros [H|H]; auto.
  - destruct (cell_compare k k0) eqn:E; cbn.
    + apply cell_compare_eq in E. subst k0.
      split; [intros [H|H]; auto|intros [H|[H|H]]; auto].
    + split; intros [H|H]; auto.
    + rewrite IH. split; [intros [H|[H|H]]|intros [H|[H|H]]]; auto.
Qed.

Lemma group_add_increasing (k : cell) (v : Qc) (d : dict) :
  keys_increasing d -> keys_increasing (group_add k v d).
Proof.
  unfold keys_increasing.
  induction 1 as [|[k0 v0] d Hs IH Hf]; cbn.
  - repeat constructor.
  - destruct (cell_compare k k0) eqn:E.
    + constructor; [exact Hs|]. exact Hf.
    + constructor; [constructor; assumption|].
      constructor; [exact E|].
      eapply Forall_impl; [|exact Hf]. cbn.
      intros e He. eapply cell_lt_trans; eassumption.
    + constructor; [exact IH|].
      apply Forall_forall. intros e He. cbn.
      assert (Hk : In (fst e) (map fst (group_add k v d)))
        by now apply in_map.
      apply group_add_keys in Hk as [Hk|Hk].
      * rewrite Hk. now apply cell_gt_lt.
      * apply in_map_iff in Hk as (e' & He' & Hin).
        rewrite <- He'. rewrite Forall_forall in Hf. now apply Hf.
Qed.

Lemma dict_get_group_add (k k' : cell) (v : Qc) (d : dict) :
  keys_increasing d ->
  dict_get k (qz 0) (group_add k' v d)
  = ((if key_eqb k k' then v else qz 0) + dict_get k (qz 0) d)%Qc.
Proof.
  unfold keys_increasing.
  induction 1 as [|[k0 v0] d Hs IH Hf]; cbn [group_add dict_get].
  - unfold key_eqb. destruct (cell_compare k k'); rewrite qz_0; ring.
  - destruct (cell_compare k' k0) eqn:E; cbn [dict_get].
    + apply cell_compare_eq in E. subst k0. unfold key_eqb.
      destruct (cell_compare k k'); rewrite ?qz_0; ring.
    + unfold key_eqb. destruct (cell_compare k k') eqn:E'.
      * apply cell_compare_eq in E'. subst k'. rewrite E.
        rewrite dict_get_absent; [rewrite qz_0; ring|].
        eapply Forall_impl; [|exact Hf]. cbn.
        intros e He. eapply cell_lt_trans; eassumption.
      * rewrite qz_0. ring.
      * rewrite qz_0. ring.
    + destruct (cell_compare k k0) eqn:E'.
      * apply cell_compare_eq in E'. subst k0.
        unfold key_eqb. rewrite (cell_gt_lt _ _ E), qz_0. ring.
      * apply IH.
      * apply IH.
Qed.

Lemma key_eqb_NaN (k : cell) : k <> NaN -> key_eqb k NaN = false.
Proof. destruct k; cbn; congruence. Qed.

(** What the rows folded into the groups so far give. *)
Lemma groupby_fold (kvs : list (cell * Qc)) (d : dict) :
  keys_increasing d ->
  let d' := fold_left
              (fun d kv => match fst kv with
                           | NaN => d
                           | k => group_add k (snd kv) d
                           end) kvs d in
  keys_increasing d'
  /\ (forall k, k <> NaN ->
        dict_get k (qz 0) d'
        = (dict_get k (qz 0) d
           + sum (map snd (filter (fun kv => key_eqb k (fst kv)) kvs)))%Qc)
  /\ (forall k, In k (map fst d')
                <-> In k (map fst d) \/ (k <> NaN /\ In k (map fst kvs))).
Proof.
  revert d. induction kvs as [|[k0 v0] kvs IH]; intros d Hd; cbn zeta.
  - cbn. split; [exact Hd|]. split.
    + intros k _. rewrite sum_nil. ring.
    + intros k. split; [auto|intros [H|[_ []]]; exact H].
  - cbn [fold_left fst snd].
    assert (Hstep : exists d1,
               d1 = match k0 with
                    | Num q => group_add (Num q) v0 d
                    | Str s => group_add (Str s) v0 d
                    | NaN => d
                    end
               /\ keys_increasing d1
               /\ (forall k, k <> NaN ->
                     dict_get k (qz 0) d1
                     = ((if key_eqb k k0 then v0 else qz 0)
                        + dict_get k (qz 0) d)%Qc)
               /\ (forall k, In k (map fst d1)
                             <-> In k (map fst d) \/ (k0 <> NaN /\ k = k0))).
    { eexists. split; [reflexivity|].
      destruct k0 as [x|s|].
      - split; [now apply group_add_increasing|].
        split; [intros; now apply dict_get_group_add|].
        intros k. rewrite group_add_keys.
        split; [intros [H|H]|intros [H|[_ H]]]; auto.
        right. split; [discriminate|exact H].
      - split; [now apply group_add_increasing|].
        split; [intros; now apply dict_get_group_add|].
        intros k. rewrite group_add_keys.
        split; [intros [H|H]|intros [H|[_ H]]]; auto.
        right. split; [discriminate|exact H].
      - split; [exact Hd|]. split.
        + intros k Hk. rewrite key_eqb_NaN by exact Hk. rewrite qz_0. ring.
        + intros k. split; [auto|intros [H|[H _]]; [exact H|congruence]]. }
    destruct Hstep as (d1 & -> & Hd1 & Hg1 & Hk1).
    destruct (IH _ Hd1) as (Hi & Hg & Hk). cbn zeta in Hi, Hg, Hk.
    split; [exact Hi|]. split.
    + intros k Hne. rewrite Hg, Hg1 by exact Hne. cbn [filter fst].
      destruct (key_eqb k k0); cbn [map snd]; rewrite ?sum_cons, ?qz_0; ring.
    + intros k. rewrite Hk, Hk1. cbn [map fst In].
      split.
      * intros [[H|[H1 H2]]|[H1 H2]]; auto.
        right. split; [congruence|auto].
      * intros [H|[H1 [H2|H2]]]; auto.
        left. right. split; [congruence|auto].
Qed.

(** ** What a returned summary holds *)

Lemma analyze_ok_inv (df : DataFrame) (s : Summary) :
  fst (analyze_portfolio df) = Ok s ->
  empty df = false ->
  exists value,
    series_mul (map (get_default "qty" NaN) (records df))
               (map (get_default "avg_price" NaN) (records df)) = Ok value
    /\ List.length value = List.length (records df)
    /\ analyze_portfolio df
       = (Ok s, setitem "value" (map Num value) df)
    /\ s = summary_of (setitem "value" (map Num value) df) value.
Proof.
  intros Hs He.
  destruct (mem "qty" (columns df)) eqn:Hq.
  2:{ unfold analyze_portfolio, getitem in Hs. rewrite He, Hq in Hs.
      discriminate. }
  destruct (mem "avg_price" (columns df)) eqn:Ha.
  2:{ unfold analyze_portfolio, getitem in Hs. rewrite He, Hq, Ha in Hs.
      discriminate. }
  destruct (series_mul (map (get_default "qty" NaN) (records df))
                       (map (get_default "avg_price" NaN) (records df)))
    as [value|e] eqn:Hv.
  2:{ unfold analyze_portfolio, getitem in Hs. rewrite He, Hq, Ha, Hv in Hs.
      discriminate. }
  exists value. split; [reflexivity|].
  assert (Hl : List.length value = List.length (records df)).
  { apply value_length in Hv. now rewrite length_map in Hv. }
  split; [exact Hl|].
  rewrite (analyze_value df value He Hq Ha Hv) in *. cbn [fst] in Hs.
  destruct (mem "account" (columns df)); [|discriminate].
  destruct (mem "type" (columns df)); [|discriminate].
  inversion Hs. split; reflexivity.
Qed.


Lemma records_setitem (col : string) (value : list Qc) (df : DataFrame) :
  records (setitem col (map Num value) df)
  = map (fun rv => set_field col (Num (snd rv)) (fst rv))
        (combine (records df) value).
Proof.
  unfold setitem; cbn [records]. generalize (records df) as rs.
  intros rs. revert value.
  induction rs as [|r rs IH]; intros [|v value]; cbn; auto.
  now rewrite IH.
Qed.

Lemma value_of_setitem (value : list Qc) (df : DataFrame) :
  List.length value = List.length (records df) ->
  map value_of (records (setitem "value" (map Num value) df)) = value.
Proof.
  rewrite records_setitem. generalize (records df) as rs.
  intros rs. revert value.
  induction rs as [|r rs IH]; intros [|v value] Hl; cbn in *;
    try discriminate; auto.
  unfold value_of at 1. rewrite get_set_field_same.
  f_equal. apply IH. lia.
Qed.


Lemma filter_map_comm {A B : Type} (p : B -> bool) (f : A -> B)
      (l : list A) :
  filter p (map f l) = map f (filter (fun x => p (f x)) l).
Proof.
  induction l as [|a l IH]; cbn; auto.
  destruct (p (f a)); cbn; now rewrite IH.
Qed.

Lemma combine_maps {A B C : Type} (f : A -> B) (g : A -> C) (l : list A) :
  combine (map f l) (map g l) = map (fun x => (f x, g x)) l.
Proof. induction l; cbn; congruence. Qed.

(** The group map over one column of the rows of a summary. *)
Lemma groupby_rows (col : string) (rs : list record) :
  let d := groupby_sum (map (get_default col NaN) rs) (map value_of rs) in
  keys_increasing d
  /\ (forall k, k <> NaN ->
        dict_get k (qz 0) d
        = sum (map value_of
                   (filter (fun r => key_eqb k (get_default col NaN r)) rs)))
  /\ (forall k, In k (map fst d)
                <-> k <> NaN
                    /\ exists r, In r rs /\ get_default col NaN r = k).
Proof.
  intros d. unfold d, groupby_sum. rewrite combine_maps.
  destruct (groupby_fold
              (map (fun x => (get_default col NaN x, value_of x)) rs) [])
    as (Hi & Hg & Hk); [constructor|].
  cbn zeta in Hi, Hg, Hk. split; [exact Hi|]. split.
  - intros k Hne. rewrite (Hg k Hne). cbn [dict_get].
    rewrite (filter_map_comm (fun kv => key_eqb k (fst kv))). cbn [fst].
    rewrite map_map. cbn [snd]. rewrite qz_0, Qcplus_0_l. reflexivity.
  - intros k. rewrite Hk. cbn [map In]. rewrite map_map. cbn [fst].
    split.
    + intros [[]|[Hne Hin]]. split; [exact Hne|].
      apply in_map_iff in Hin as (r & Hr & Hin). eauto.
    + intros (Hne & r & Hin & Hr). right. split; [exact Hne|].
      apply in_map_iff. eauto.
Qed.


(** X8.  Group keys.  In every summary returned for a non-empty frame,
    the keys of the by-account map are exactly the accounts that occur in
    some row (a row whose account cell is missing belongs to no group),
    each once, in increasing order; likewise the keys of the by-type
    map. *)
Theorem group_keys (df : DataFrame) (s : Summary) :
  fst (analyze_portfolio df) = Ok s ->
  empty df = false ->
  (keys_increasing (by_account s)
   /\ forall k, In k (map fst (by_account s))
                <-> k <> NaN
                    /\ exists r, In r (rows s)
                                 /\ get_default "account" NaN r = k)
  /\ (keys_increasing (by_type s)
      /\ forall k, In k (map fst (by_type s))
                   <-> k <> NaN
                       /\ exists r, In r (rows s)
                                    /\ get_default "type" NaN r = k).
Proof.
  intros Hs He.
  destruct (analyze_ok_inv df s Hs He) as (value & _ & Hl & _ & ->).
  unfold summary_of. cbn [rows by_account by_type].
  assert (Hval := value_of_setitem value df Hl).
  set (rs1 := records (setitem "value" (map Num value) df)) in *.
  rewrite <- Hval. split.
  - destruct (groupby_rows "account" rs1) as (H1 & _ & H3).
    split; assumption.
  - destruct (groupby_rows "type" rs1) as (H1 & _ & H3).
    split; assumption.
Qed.

Lemma analyze_ok_columns (df : DataFrame) (s : Summary) :
  fst (analyze_portfolio df) = Ok s ->
  empty df = false ->
  mem "qty" (columns df) = true /\ mem "avg_price" (columns df) = true
  /\ mem "account" (columns df) = true /\ mem "type" (columns df) = true.
Proof.
  intros Hs He.
  destruct (analyze_ok_inv df s Hs He) as (value & Hv & _ & _ & _).
  destruct (mem "qty" (columns df)) eqn:Hq.
  2:{ unfold analyze_portfolio, getitem in Hs. rewrite He, Hq in Hs.
      discriminate. }
  destruct (mem "avg_price" (columns df)) eqn:Ha.
  2:{ unfold analyze_portfolio, getitem in Hs. rewrite He, Hq, Ha in Hs.
      discriminate. }
  rewrite (analyze_value df value He Hq Ha Hv) in Hs. cbn [fst] in Hs.
  destruct (mem "account" (columns df)); [|discriminate].
  destruct (mem "type" (columns df)); [|discriminate]. auto.
Qed.



Lemma set_field_idem (k : string) (v : cell) (r : record) :
  set_field k v (set_field k v r) = set_field k v r.
Proof.
  induction r as [|[k0 v0] r IH]; cbn.
  - now rewrite String.eqb_refl.
  - destruct (String.eqb k k0) eqn:E; cbn; rewrite E; congruence.
Qed.

Lemma setitem_idem (col : string) (vals : list cell) (df : DataFrame) :
  List.length vals = List.length (records df) ->
  setitem col vals (setitem col vals df) = setitem col vals df.
Proof.
  intros Hl. unfold setitem. cbn [columns records]. f_equal.
  - destruct (mem col (columns df)) eqn:E; [now rewrite E|].
    rewrite mem_app. cbn. now rewrite String.eqb_refl, orb_true_r.
  - revert Hl. generalize (records df) as rs. intros rs. revert vals.
    induction rs as [|r rs IH]; intros [|v vals] Hl; cbn in *;
      try discriminate; auto.
    rewrite set_field_idem. f_equal. apply IH. lia.
Qed.

Lemma empty_setitem (col : string) (vals : list cell) (df : DataFrame) :
  List.length vals = List.length (records df) ->
  empty df = false -> empty (setitem col vals df) = false.
Proof.
  unfold empty, setitem; cbn [records columns]. intros Hl.
  destruct (records df) as [|r rs]; [discriminate|].
  destruct vals as [|v vals]; [discriminate|]. cbn.
  destruct (columns df) as [|c cs]; [discriminate|]. intros _.
  now destruct (mem col (c :: cs)).
Qed.

(** X16.  Running the analysis again on the frame a first run has left
    returns the same summary and leaves that frame as it is: the [value]
    column written by the first run is overwritten with the same
    numbers. *)
Theorem analysis_rerun (df : DataFrame) (s : Summary) :
  fst (analyze_portfolio df) = Ok s ->
  analyze_portfolio (snd (analyze_portfolio df))
  = (Ok s, snd (analyze_portfolio df)).
Proof.
  intros Hs. destruct (empty df) eqn:He.
  { rewrite (analyze_empty df He) in *. cbn [fst snd] in *.
    inversion Hs; subst s. now apply analyze_empty. }
  destruct (analyze_ok_columns df s Hs He) as (Hq & Ha & Hacc & Htyp).
  destruct (analyze_ok_inv df s Hs He) as (value & Hv & Hl & E & Hsum).
  rewrite E. cbn [snd].
  set (df1 := setitem "value" (map Num value) df) in *.
  assert (Hl' : List.length (map Num value) = List.length (records df))
    by now rewrite length_map.
  assert (He1 : empty df1 = false) by now apply empty_setitem.
  assert (Hv1 : series_mul (map (get_default "qty" NaN) (records df1))
                           (map (get_default "avg_price" NaN) (records df1))
                = Ok value).
  { unfold df1.
    rewrite !records_setitem_get_default by (discriminate || exact Hl').
    exact Hv. }
  rewrite (analyze_value df1 value He1); auto;
    try (unfold df1; rewrite mem_setitem by discriminate; assumption).
  unfold df1 at 1 2. rewrite !mem_setitem by discriminate.
  rewrite Hacc, Htyp. unfold df1.
  rewrite (setitem_idem "value" (map Num value) df Hl').
  now rewrite Hsum.
Qed.

(** ** What the handlers do on every source *)

Lemma fetch_normalized (src : Source) (df : DataFrame) :
  snd (fetch numeric_of_string src) = Ok df ->
  exists rows, df = normalize numeric_of_string rows.
Proof.
  rewrite fetch_result. destruct src as [sh|e]; cbn; [|discriminate].
  destruct (open_sheet sh) as [ws|e]; cbn; [|discriminate].
  destruct (get_all_records ws) as [rows|e]; cbn; [|discriminate].
  intros H. inversion H. now exists rows.
Qed.

Lemma records_normalize (rows : list record) :
  empty (normalize numeric_of_string rows) = false ->
  records (normalize numeric_of_string rows)
  = map (normalized_record numeric_of_string (columns_of rows)) rows.
Proof.
  rewrite empty_normalize. intros He. now rewrite (normalize_records rows He).
Qed.

Lemma count_last (p : event -> bool) (t : list event) (ev : event) :
  count p (t ++ [ev]) = (count p t + if p ev then 1 else 0)%nat.
Proof. rewrite count_app. unfold count. cbn. now destruct (p ev). Qed.

(** X10.  The listing and the preview never raise: whatever connecting
    and reading the sheet do, and whichever columns the rows have or
    lack, [cmd_portfolio] and [cmd_rows] return normally, having connected
    once and sent exactly one reply, as their last action. *)
Theorem listing_and_preview_total (src : Source) :
  (exists t text,
      cmd_portfolio numeric_of_string float_of_string str_of_num src
      = (t ++ [Answer text], Ok tt)
      /\ count is_answer t = 0%nat /\ count is_connect t = 1%nat)
  /\ (exists t text,
         cmd_rows numeric_of_string float_of_string str_of_num src
         = (t ++ [Answer text], Ok tt)
         /\ count is_answer t = 0%nat /\ count is_connect t = 1%nat).
Proof.
  destruct (fetch_cases src) as (Hc & _ & Ha & _). cbn zeta in Hc, Ha.
  unfold cmd_portfolio, cmd_rows. rewrite !bind_attempt.
  destruct (snd (fetch numeric_of_string src)) as [df|e] eqn:Hf.
  - destruct (fetch_normalized src df Hf) as [rows ->].
    destruct (empty (normalize numeric_of_string rows)) eqn:He.
    + split; do 2 eexists; (split; [reflexivity|]); auto.
    + rewrite (records_normalize rows He). split.
      * destruct (portfolio_loop_normalized (columns_of rows) rows (qz 0))
          as (lines & total & Hl & _).
        unfold bind, lift, emit. rewrite Hl. cbn [fst snd app].
        do 2 eexists. split; [reflexivity|]. auto.
      * rewrite firstn_map.
        destruct (rows_loop_normalized (columns_of rows) (firstn 10 rows) 1
                    ("Первые строки:" ++ newline)%string) as (lines & Hl & _).
        unfold bind, lift, emit. rewrite Hl. cbn [fst snd app].
        do 2 eexists. split; [reflexivity|]. auto.
  - split.
    + exists (fst (fetch numeric_of_string src)
                ++ [LogException "Ошибка чтения Google Sheets" e]).
      eexists. split.
      * unfold bind, emit. cbn [fst snd]. rewrite <- app_assoc. reflexivity.
      * rewrite !count_last. cbn. rewrite Ha, Hc. auto.
    + do 2 eexists. split; [reflexivity|]. auto.
Qed.

Lemma series_mul_normalized (rows : list record) :
  empty (frame_of_rows rows) = false ->
  mem "qty" (columns_of rows) = true ->
  mem "avg_price" (columns_of rows) = true ->
  exists value,
    series_mul
      (map (get_default "qty" NaN)
           (records (normalize numeric_of_string rows)))
      (map (get_default "avg_price" NaN)
           (records (normalize numeric_of_string rows))) = Ok value.
Proof.
  intros He Hq Ha.
  assert (H1 := normalize_numeric rows "qty" (or_introl eq_refl) He Hq).
  assert (H2 := normalize_numeric rows "avg_price" (or_intror eq_refl) He Ha).
  unfold numeric in H1, H2.
  apply andb_true_iff in H1 as [_ H1]. apply andb_true_iff in H2 as [_ H2].
  now apply series_mul_numeric.
Qed.

Lemma cmd_analysis_on (src : Source) (df : DataFrame) :
  snd (fetch numeric_of_string src) = Ok df ->
  cmd_analysis numeric_of_string str_of_num src
  = match fst (analyze_portfolio df) with
    | Raise e => (fst (fetch numeric_of_string src), Raise e)
    | Ok s =>
        if Qc_eq_bool (total s) (qz 0)
        then (fst (fetch numeric_of_string src)
                ++ [Answer "Портфель пуст или нулевой."], Ok tt)
        else
          match rmap (group_line str_of_num "by_account_pct"
                        (by_account_pct s)) (by_account s),
                rmap (group_line str_of_num "by_type_pct"
                        (by_type_pct s)) (by_type s) with
          | Ok acc_lines, Ok typ_lines =>
              (fst (fetch numeric_of_string src)
                 ++ [Answer
                       (join newline
                          (analysis_header (total s)
                             :: "— По счетам:"%string
                             :: acc_lines
                             ++ (newline ++ "— По типам:")%string
                             :: typ_lines))], Ok tt)
          | Raise e, _ => (fst (fetch numeric_of_string src), Raise e)
          | Ok _, Raise e => (fst (fetch numeric_of_string src), Raise e)
          end
    end.
Proof.
  intros Hf. unfold cmd_analysis. rewrite bind_attempt, Hf.
  unfold bind, lift, emit. cbn [fst snd].
  destruct (fst (analyze_portfolio df)) as [s|e]; cbn [fst snd];
    [|now rewrite app_nil_r].
  destruct (Qc_eq_bool (total s) (qz 0)); cbn [fst snd];
    [now rewrite app_nil_l|].
  destruct (rmap (group_line str_of_num "by_account_pct" (by_account_pct s))
                 (by_account s)); cbn [fst snd];
    [|now rewrite ?app_nil_r].
  destruct (rmap (group_line str_of_num "by_type_pct" (by_type_pct s))
                 (by_type s)); cbn [fst snd app]; now rewrite ?app_nil_r.
Qed.

(** X11.  What the summary analysis does with a fetched, non-empty table
    is decided by its columns alone.  If the table has the four columns
    [qty], [avg_price], [account] and [type], the handler returns
    normally with one reply.  Otherwise it raises [KeyError] for the first
    of them, in this order, that is missing, and sends nothing. *)
Theorem analysis_outcome (src : Source) (rows : list record) :
  snd (fetch numeric_of_string src) = Ok (normalize numeric_of_string rows) ->
  empty (frame_of_rows rows) = false ->
  match first_missing (columns_of rows) with
  | Some col =>
      cmd_analysis numeric_of_string str_of_num src
      = (fst (fetch numeric_of_string src), Raise (KeyError col))
  | None =>
      exists text,
        cmd_analysis numeric_of_string str_of_num src
        = (fst (fetch numeric_of_string src) ++ [Answer text], Ok tt)
  end.
Proof.
  intros Hf He. rewrite (cmd_analysis_on src _ Hf).
  assert (He' : empty (normalize numeric_of_string rows) = false)
    by now rewrite empty_normalize.
  assert (Hcols : columns (normalize numeric_of_string rows)
                  = columns_of rows)
    by now rewrite (normalize_records rows He).
  unfold first_missing. cbn [find].
  destruct (mem "qty" (columns_of rows)) eqn:Hq; cbn [negb].
  2:{ unfold analyze_portfolio, getitem. now rewrite He', Hcols, Hq. }
  destruct (mem "avg_price" (columns_of rows)) eqn:Ha; cbn [negb].
  2:{ unfold analyze_portfolio, getitem. now rewrite He', Hcols, Hq, Ha. }
  destruct (series_mul_normalized rows He Hq Ha) as [value Hv].
  rewrite (analyze_value _ value He'); try (rewrite Hcols; assumption);
    [|exact Hv].
  rewrite Hcols. cbn [fst].
  destruct (mem "account" (columns_of rows)); cbn [negb]; [|reflexivity].
  destruct (mem "type" (columns_of rows)); cbn [negb]; [|reflexivity].
  destruct (Qc_eq_bool
              (total (summary_of
                        (setitem "value" (map Num value)
                           (normalize numeric_of_string rows)) value))
              (qz 0)); [eauto|].
  unfold summary_of.
  cbn [total by_account by_type by_account_pct by_type_pct].
  match goal with
  | |- context [rmap (group_line _ "by_account_pct" (Some ?p)) ?g] =>
      destruct (group_lines "by_account_pct" p g) as (al & Hal & _);
      rewrite Hal
  end.
  match goal with
  | |- context [rmap (group_line _ "by_type_pct" (Some ?p)) ?g] =>
      destruct (group_lines "by_type_pct" p g) as (tl & Htl & _);
      rewrite Htl
  end.
  eauto.
Qed.

(** X12.  The fixed notices.  On a fetched frame that is empty the
    listing, the preview and the analysis each answer with their own fixed
    notice.  The analysis answers with its notice exactly when the
    returned total is 0, which includes non-empty tables whose values are
    all 0; with any other total its reply begins with the analysis
    header. *)
Theorem fixed_notices (src : Source) (df : DataFrame) :
  snd (fetch numeric_of_string src) = Ok df ->
  (empty df = true ->
   cmd_portfolio numeric_of_string float_of_string str_of_num src
   = (fst (fetch numeric_of_string src)
        ++ [Answer "Портфель пуст или неверная структура листа."], Ok tt)
   /\ cmd_rows numeric_of_string float_of_string str_of_num src
      = (fst (fetch numeric_of_string src) ++ [Answer "Пусто"], Ok tt)
   /\ cmd_analysis numeric_of_string str_of_num src
      = (fst (fetch numeric_of_string src)
           ++ [Answer "Портфель пуст или нулевой."], Ok tt))
  /\ (forall s,
         fst (analyze_portfolio df) = Ok s ->
         (cmd_analysis numeric_of_string str_of_num src
          = (fst (fetch numeric_of_string src)
               ++ [Answer "Портфель пуст или нулевой."], Ok tt)
          <-> total s = qz 0)).
Proof.
  intros Hf. split.
  - intros He. split; [|split].
    + unfold cmd_portfolio. rewrite bind_attempt, Hf, He. reflexivity.
    + unfold cmd_rows. rewrite bind_attempt, Hf, He. reflexivity.
    + rewrite (cmd_analysis_on src df Hf), (analyze_empty df He).
      reflexivity.
  - intros s Hs. rewrite (cmd_analysis_on src df Hf), Hs.
    destruct (Qc_eq_bool (total s) (qz 0)) eqn:Ht.
    + apply Qc_eq_bool_correct in Ht. split; auto.
    + assert (Hne : total s <> qz 0).
      { intros E. rewrite E in Ht. unfold Qc_eq_bool in Ht.
        now destruct (Qc_eq_dec (qz 0) (qz 0)). }
      split; [|contradiction]. intros H. exfalso.
      destruct (nonzero_total_summary df s Hs Ht) as (pa & pt & Hpa & Hpt).
      rewrite Hpa, Hpt in H.
      destruct (group_lines "by_account_pct" pa (by_account s))
        as (al & Hal & _).
      destruct (group_lines "by_type_pct" pt (by_type s))
        as (tl & Htl & _).
      rewrite Hal, Htl in H. injection H as H.
      apply app_inv_head in H.
      assert (Htext : forall a b, [Answer a] = [Answer b] -> a = b)
        by (intros a b E; now inversion E).
      apply Htext in H. discriminate H.
Qed.






Lemma refresh_one_connect (src : Source) :
  count is_connect (fst (refresh numeric_of_string src)) = 1%nat.
Proof.
  destruct (fetch_cases src) as (Hc & _). cbn zeta in Hc.
  unfold refresh, bind, lift, emit.
  destruct (fetch numeric_of_string src) as [t [df|e]]; cbn [fst snd] in *;
    auto.
  destruct (analyze_portfolio df) as [[s|e] df']; cbn [fst snd];
    rewrite ?app_nil_r, ?count_app, ?Hc; auto.
Qed.

(** X15.  The refresh loop is silent and connects once per turn: in any
    number of turns, whatever the source does in each, it sends no reply
    to anyone, and it has connected as many times as it has run turns. *)
Theorem refresh_loop_is_silent (n : nat) (env : nat -> Source) (i : nat) :
  count is_answer (fst (periodic_task numeric_of_string n env i)) = 0%nat
  /\ count is_connect (fst (periodic_task numeric_of_string n env i)) = n.
Proof.
  revert i. induction n as [|n IH]; intros i; cbn [periodic_task].
  - split; reflexivity.
  - destruct (IH (S i)) as (Ha & Hc).
    unfold bind. rewrite periodic_cycle_events. cbn [fst snd].
    destruct (refresh_no_sleep_no_answer (env i)) as [_ Hra].
    rewrite !count_app, Hra, Ha, Hc, refresh_one_connect.
    destruct (snd (refresh numeric_of_string (env i))); split; reflexivity.
Qed.



End Verification.

(** * Concrete runs *)





Lemma zero_total_safety_witness :
  exists s pcts,
    fst (analyze_portfolio (normalize no_number [row_text_qty])) = Ok s
    /\ total s = qz 0
    /\ by_account_pct s = Some pcts
    /\ pcts <> []
    /\ forall k p, In (k, p) pcts -> p = qz 0.
Proof.
  assert (H : exists s pcts,
             fst (analyze_portfolio (normalize no_number [row_text_qty]))
             = Ok s
             /\ total s = qz 0
             /\ by_account_pct s = Some pcts /\ pcts <> []).
  { do 2 eexists. split; [vm_compute; reflexivity|].
    split; [apply Qc_is_canon; reflexivity|].
    split; [reflexivity|discriminate]. }
  destruct H as (s & pcts & Hs & Ht & Hp & Hne).
  exists s, pcts. repeat split; auto.
  destruct (zero_total_safety (normalize no_number [row_text_qty]))
    as [_ H].
  apply (H s Hs Ht pcts). now left.
Defined.

(** The summary of no rows at all has no percentage maps: they are not
    empty maps, they are absent. *)
Lemma empty_summary_without_percentages :
  exists s,
    fst (analyze_portfolio (normalize no_number [])) = Ok s
    /\ by_account_pct s = None /\ by_type_pct s = None
    /\ by_account_pct s <> Some [] /\ by_type_pct s <> Some [].
Proof.
  eexists. split; [reflexivity|]. cbn.
  repeat split; (reflexivity || discriminate).
Qed.

Lemma empty_input_summary_witness :
  empty (normalize no_number []) = true
  /\ analyze_portfolio (normalize no_number [])
     = (Ok (mkSummary (qz 0) [] None [] None []), normalize no_number []).
Proof.
  split; [reflexivity|].
  apply (empty_input_summary (normalize no_number [])). reflexivity.
Defined.

Lemma query_failure_isolation_witness :
  snd (fetch no_number unreachable) = Raise (SourceError "timed out")
  /\ cmd_analysis no_number plain_number unreachable
     = ([Connect; Answer "Ошибка доступа к Google Sheets: timed out"], Ok tt).
Proof.
  split; [reflexivity|].
  apply (query_failure_isolation no_number no_number plain_number unreachable
           (SourceError "timed out")).
  reflexivity.
Defined.

Lemma refresh_loop_liveness_witness :
  snd (refresh no_number unreachable) = Raise (SourceError "timed out")
  /\ periodic_cycle no_number unreachable
     = ([Connect;
         LogException "Periodic task error" (SourceError "timed out");
         Sleep 1800], Ok tt)
  /\ snd (refresh no_number (sheet_with [row_X])) = Ok tt
  /\ exists df s,
       snd (fetch no_number (sheet_with [row_X])) = Ok df
       /\ fst (analyze_portfolio df) = Ok s
       /\ periodic_cycle no_number (sheet_with [row_X])
          = (fst (fetch no_number (sheet_with [row_X]))
               ++ [LogInfo "Periodic update — total: %s" (total s);
                   Sleep 1800], Ok tt).
Proof.
  destruct (refresh_loop_liveness no_number) as (H1 & H2 & _).
  split; [reflexivity|]. split.
  - apply (H1 unreachable (SourceError "timed out")). reflexivity.
  - split; [reflexivity|]. apply (H2 (sheet_with [row_X])). reflexivity.
Defined.





Lemma analysis_missing_column_witness :
  snd (fetch no_number (sheet_with [row_without_qty]))
  = Ok (normalize no_number [row_without_qty])
  /\ mem "qty" (columns_of [row_without_qty]) = false
  /\ cmd_analysis no_number plain_number (sheet_with [row_without_qty])
     = ([Connect; OpenWorksheet "portfolio"; GetAllRecords],
        Raise (KeyError "qty")).
Proof.
  split; [reflexivity|]. split; [reflexivity|].
  destruct (analysis_missing_column no_number plain_number
              (sheet_with [row_without_qty]) [row_without_qty])
    as (col & Hc & Hm & Hr & _);
    [reflexivity | reflexivity | left; reflexivity |].
  rewrite Hr. destruct Hc as [-> | ->]; [reflexivity|discriminate].
Defined.

(** ** The scenarios of the specification *)

Ltac qc_eq := apply Qc_is_canon; vm_compute; reflexivity.

(** Scenario A: one position of 10 units at 5. *)
Example scenario_A :
  exists s,
    fst (analyze_portfolio
           (normalize no_number
              [[("account", Str "A"); ("type", Str "stock");
                ("symbol", Str "X"); ("qty", Num (qz 10));
                ("avg_price", Num (qz 5))]])) = Ok s
    /\ total s = qz 50
    /\ by_account s = [(Str "A", qz 50)]
    /\ by_account_pct s = Some [(Str "A", qz 100)].
Proof.
  eexists. split; [vm_compute; reflexivity|]. cbn [total by_account
                                                     by_account_pct].
  split; [qc_eq|]. split; repeat f_equal; qc_eq.
Qed.

(** Scenario C: a text cell in [qty] counts as 0, and the analysis answers
    with its notice for an empty or zero portfolio. *)
Example scenario_C :
  cmd_analysis no_number plain_number (sheet_with [row_text_qty])
  = ([Connect; OpenWorksheet "portfolio"; GetAllRecords;
      Answer "Портфель пуст или нулевой."], Ok tt).
Proof. vm_compute. reflexivity. Qed.

(** Scenario D: accounts A and B holding 30 and 70. *)
Example scenario_D :
  exists s,
    fst (analyze_portfolio
           (normalize no_number
              [[("account", Str "B"); ("type", Str "bond");
                ("qty", Num (qz 7)); ("avg_price", Num (qz 10))];
               [("account", Str "A"); ("type", Str "stock");
                ("qty", Num (qz 3)); ("avg_price", Num (qz 10))]])) = Ok s
    /\ by_account_pct s = Some [(Str "A", qz 30); (Str "B", qz 70)].
Proof.
  eexists. split; [vm_compute; reflexivity|]. cbn [by_account_pct].
  repeat f_equal; qc_eq.
Qed.

(** Scenario B: no rows at all. *)
Example scenario_B :
  cmd_portfolio no_number no_number plain_number (sheet_with [])
  = ([Connect; OpenWorksheet "portfolio"; GetAllRecords;
      Answer "Портфель пуст или неверная структура листа."], Ok tt)
  /\ cmd_analysis no_number plain_number (sheet_with [])
     = ([Connect; OpenWorksheet "portfolio"; GetAllRecords;
         Answer "Портфель пуст или нулевой."], Ok tt).
Proof. split; vm_compute; reflexivity. Qed.

(** ** Runs of the further properties *)

Lemma worksheet_fallback_witness :
  worksheet (book_without_tab [row_X]) EXPECTED_SHEET_NAME
  = Raise (SourceError "WorksheetNotFound")
  /\ sheet_to_dataframe no_number (book_without_tab [row_X])
     = ([OpenWorksheet "portfolio"; OpenSheet1; GetAllRecords],
        Ok (normalize no_number [row_X]))
  /\ sheet_to_dataframe no_number (book_with [row_X])
     = ([OpenWorksheet "portfolio"; GetAllRecords],
        Ok (normalize no_number [row_X])).
Proof.
  destruct (worksheet_fallback no_number (book_without_tab [row_X]))
    as [_ H2].
  destruct (H2 (SourceError "WorksheetNotFound") eq_refl) as (Hr & t & Ht & _).
  destruct (worksheet_fallback no_number (book_with [row_X])) as [H1 _].
  split; [reflexivity|]. split; [reflexivity|].
  apply (H1 (mkWorksheet (Ok [row_X]))). reflexivity.
Defined.





Lemma group_keys_witness :
  exists s,
    fst (analyze_portfolio (normalize whole_number [row_X; row_Y])) = Ok s
    /\ map fst (by_account s) = [Str "A"; Str "B"]
    /\ keys_increasing (by_account s).
Proof.
  assert (H : exists s,
             fst (analyze_portfolio (normalize whole_number [row_X; row_Y]))
             = Ok s /\ map fst (by_account s) = [Str "A"; Str "B"]).
  { eexists. split; [vm_compute; reflexivity|reflexivity]. }
  destruct H as (s & Hs & Hk). exists s. split; [exact Hs|].
  split; [exact Hk|].
  apply (group_keys (normalize whole_number [row_X; row_Y]) s Hs).
  reflexivity.
Defined.



Lemma analysis_rerun_witness :
  exists s,
    fst (analyze_portfolio (normalize whole_number [row_X; row_Y])) = Ok s
    /\ analyze_portfolio
         (snd (analyze_portfolio (normalize whole_number [row_X; row_Y])))
       = (Ok s,
          snd (analyze_portfolio (normalize whole_number [row_X; row_Y]))).
Proof.
  assert (H : exists s,
             fst (analyze_portfolio (normalize whole_number [row_X; row_Y]))
             = Ok s).
  { eexists. vm_compute. reflexivity. }
  destruct H as (s & Hs). exists s. split; [exact Hs|].
  apply (analysis_rerun (normalize whole_number [row_X; row_Y]) s Hs).
Defined.

Lemma analysis_outcome_witness :
  first_missing (columns_of [row_without_qty]) = Some "qty"%string
  /\ cmd_analysis no_number plain_number (sheet_with [row_without_qty])
     = (fst (fetch no_number (sheet_with [row_without_qty])),
        Raise (KeyError "qty"))
  /\ first_missing (columns_of [row_X]) = None
  /\ exists text,
       cmd_analysis no_number plain_number (sheet_with [row_X])
       = (fst (fetch no_number (sheet_with [row_X])) ++ [Answer text], Ok tt).
Proof.
  split; [reflexivity|]. split.
  - exact (analysis_outcome no_number plain_number
             (sheet_with [row_without_qty]) [row_without_qty]
             eq_refl eq_refl).
  - split; [reflexivity|].
    exact (analysis_outcome no_number plain_number (sheet_with [row_X])
             [row_X] eq_refl eq_refl).
Defined.

Lemma fixed_notices_witness :
  snd (fetch no_number (sheet_with [])) = Ok (normalize no_number [])
  /\ empty (normalize no_number []) = true
  /\ cmd_rows no_number no_number plain_number (sheet_with [])
     = ([Connect; OpenWorksheet "portfolio"; GetAllRecords; Answer "Пусто"],
        Ok tt)
  /\ cmd_analysis no_number plain_number (sheet_with [row_text_qty])
     = (fst (fetch no_number (sheet_with [row_text_qty]))
          ++ [Answer "Портфель пуст или нулевой."], Ok tt).
Proof.
  split; [reflexivity|]. split; [reflexivity|]. split.
  - destruct (fixed_notices no_number no_number plain_number (sheet_with [])
                (normalize no_number []) eq_refl) as [H _].
    destruct (H eq_refl) as (_ & Hr & _). exact Hr.
  - destruct (fixed_notices no_number no_number plain_number
                (sheet_with [row_text_qty])
                (normalize no_number [row_text_qty]) eq_refl) as [_ H].
    assert (Hs : exists s,
               fst (analyze_portfolio (normalize no_number [row_text_qty]))
               = Ok s /\ total s = qz 0).
    { eexists. split; [vm_compute; reflexivity|].
      apply Qc_is_canon. reflexivity. }
    destruct Hs as (s & Hs & Ht). now apply (H s Hs).
Defined.


